(** * GotMail service: the views of [gotmail_service/views.py]

    A shallow embedding of the request handlers of the GotMail backend and
    the properties of its session, registration, settings, search and
    two-factor flows.

    Conventions of the embedding.
    - The relational store is a record of tables, each table a list of rows
      in insertion order; a row is a record carrying its primary key.
    - A handler is a computation in a state-and-exception monad over the
      store: Python exceptions are values of [Exn], and the store reached
      when an exception is raised is kept (the views open no transaction).
    - Timestamps are integers (microseconds); every call of
      [timezone.now()] is an explicit argument of the handler that makes it.
    - A Python [str] is a [string] whose characters are the code points
      below 256; [None] is the [None] of an [option]. *)

From Stdlib Require Import ZArith List String Ascii Bool Lia.
Import ListNotations.

Local Open Scope string_scope.
Local Open Scope Z_scope.

(** ** Data model (the tables the views read and write) *)

Record User := mkUser {
  user_id : Z;
  phone_number : string;
  password : string;
  first_name : string;
  last_name : string;
  email : string;
  session_token : option string;
  session_expiry : option Z
}.

Record UserProfile := mkUserProfile {
  profile_id : Z;
  profile_user : Z;
  bio : string;
  birthdate : option Z;
  profile_picture : option string;
  two_factor_enabled : bool
}.

Record UserSettings := mkUserSettings {
  settings_id : Z;
  settings_user : Z;
  auto_reply_enabled : bool;
  auto_reply_message : string;
  auto_reply_start_date : option Z;
  auto_reply_end_date : option Z;
  font : string;
  dark_mode : bool
}.

Record Label := mkLabel {
  label_id : Z;
  label_user : Z;
  label_name : string;
  label_color : string
}.

Record Email := mkEmail {
  email_id : Z;
  sender : Z;
  recipients : list Z;
  subject : string;
  body : string;
  sent_at : Z;
  is_read : bool;
  is_starred : bool;
  is_trashed : bool;
  labels : list Z
}.

Record Attachment := mkAttachment {
  attachment_id : Z;
  attachment_email : Z;
  attachment_file : string
}.

Record DB := mkDB {
  db_users : list User;
  db_profiles : list UserProfile;
  db_settings : list UserSettings;
  db_labels : list Label;
  db_emails : list Email;
  db_attachments : list Attachment
}.

Definition set_users (us : list User) (db : DB) : DB :=
  mkDB us (db_profiles db) (db_settings db) (db_labels db) (db_emails db)
       (db_attachments db).

Definition set_profiles (ps : list UserProfile) (db : DB) : DB :=
  mkDB (db_users db) ps (db_settings db) (db_labels db) (db_emails db)
       (db_attachments db).

Definition set_settings (ss : list UserSettings) (db : DB) : DB :=
  mkDB (db_users db) (db_profiles db) ss (db_labels db) (db_emails db)
       (db_attachments db).

Definition set_labels (ls : list Label) (db : DB) : DB :=
  mkDB (db_users db) (db_profiles db) (db_settings db) ls (db_emails db)
       (db_attachments db).

(** The next value of an auto-incremented primary key. *)
Definition next_id (ids : list Z) : Z :=
  1 + fold_right Z.max 0 ids.

(** ** Python values *)

(** Truth value of an optional string: [None] and [""] are false. *)
Definition truthy (s : option string) : bool :=
  match s with
  | None => false
  | Some t => negb (t =? "")%string
  end.

(** [a or b] on optional strings. *)
Definition py_or (a b : option string) : option string :=
  if truthy a then a else b.

Definition option_string_eqb (a b : option string) : bool :=
  match a, b with
  | Some x, Some y => (x =? y)%string
  | None, None => true
  | _, _ => false
  end.

(** ** Exceptions and the handler monad *)

Inductive Exn :=
| DoesNotExist
| MultipleObjectsReturned
| RelatedObjectDoesNotExist
| IntegrityError
| TypeError
| ValidationError (msg : string)
| AuthenticationFailed (msg : string).

Inductive Outcome (A : Type) :=
| Return (a : A)
| Raise (e : Exn).

Arguments Return {A} a.
Arguments Raise {A} e.

Definition M (A : Type) : Type := DB -> Outcome A * DB.

Definition ret {A} (a : A) : M A := fun db => (Return a, db).

Definition raise {A} (e : Exn) : M A := fun db => (Raise e, db).

Definition bind {A B} (c : M A) (k : A -> M B) : M B :=
  fun db =>
    match c db with
    | (Return a, db') => k a db'
    | (Raise e, db') => (Raise e, db')
    end.

(** [try: c except ...]: the handler answers [None] for an exception its
    [except] clauses do not name, which then propagates. *)
Definition try_except {A} (c : M A) (handler : Exn -> option (M A)) : M A :=
  fun db =>
    match c db with
    | (Return a, db') => (Return a, db')
    | (Raise e, db') =>
        match handler e with
        | Some h => h db'
        | None => (Raise e, db')
        end
    end.

Definition get_db : M DB := fun db => (Return db, db).

Declare Scope handler_scope.
Delimit Scope handler_scope with handler.

Notation "x <- c ;; k" := (bind c (fun x => k))
  (at level 61, c at next level, right associativity) : handler_scope.
Notation "c ;;; k" := (bind c (fun _ => k))
  (at level 61, right associativity) : handler_scope.

Local Open Scope handler_scope.

(** ** Responses *)

Inductive Payload :=
| JsonError (msg : string)
| JsonMessage (msg : string)
| JsonMessageExn (msg : string) (e : Exn)
| JsonErrorDetails (msg : string) (e : Exn)
| JsonSerializerErrors
| JsonUser (u : User)
| JsonUserMessage (u : User) (msg : string)
| JsonAutoReply (s : UserSettings).

Record Response := mkResponse {
  status_code : Z;
  data : Payload
}.

Definition HTTP_200_OK : Z := 200.
Definition HTTP_201_CREATED : Z := 201.
Definition HTTP_400_BAD_REQUEST : Z := 400.
Definition HTTP_401_UNAUTHORIZED : Z := 401.
Definition HTTP_500_INTERNAL_SERVER_ERROR : Z := 500.

(** ** The query interface used by the views *)

(** [Model.objects.get(...)] over a table: the single row that satisfies
    the lookups. *)
Definition objects_get {R} (table : DB -> list R) (lookup : R -> bool) : M R :=
  fun db =>
    match filter lookup (table db) with
    | [] => (Raise DoesNotExist, db)
    | [r] => (Return r, db)
    | _ :: _ :: _ => (Raise MultipleObjectsReturned, db)
    end.

(** [session_token=value]: an exact lookup, which is [IS NULL] for [None]. *)
Definition session_token_exact (value : option string) (u : User) : bool :=
  option_string_eqb (session_token u) value.

(** [session_expiry__gt=now]: a NULL expiry satisfies no comparison. *)
Definition session_expiry_gt (now : Z) (u : User) : bool :=
  match session_expiry u with
  | Some e => now <? e
  | None => false
  end.

Definition session_lookup (value : option string) (now : Z) (u : User) : bool :=
  session_token_exact value u && session_expiry_gt now u.

(** The rows [User.objects.get(session_token=..., session_expiry__gt=...)]
    chooses from. *)
Definition live_sessions (value : option string) (now : Z) (db : DB) : list User :=
  filter (session_lookup value now) (db_users db).

(** [user.save()]: the row with the user's primary key is overwritten. *)
Definition User_save (u : User) : M unit :=
  fun db =>
    (Return tt,
     set_users
       (map (fun r => if user_id r =? user_id u then u else r) (db_users db))
       db).

(** [django.contrib.auth.logout(request)] and [login(request, user)] act on
    the framework's own session, which is none of the tables above. *)
Definition django_logout : M unit := ret tt.
Definition django_login (u : User) : M unit := ret tt.

(** ** SessionTokenAuthentication.authenticate *)

Definition SessionTokenAuthentication_authenticate
    (now : Z) (authorization : option string) : M (option User) :=
  let session_token := authorization in
  if negb (truthy session_token) then ret None
  else
    try_except
      (user <- objects_get db_users (session_lookup session_token now) ;;
       ret (Some user))
      (fun e =>
         match e with
         | DoesNotExist =>
             Some (raise (AuthenticationFailed "Invalid or expired token"))
         | _ => None
         end).

(** ** LogoutView.post *)

Definition clear_session (u : User) : User :=
  mkUser (user_id u) (phone_number u) (password u) (first_name u)
         (last_name u) (email u) None None.

Definition LogoutView_post
    (now : Z) (data_session_token authorization : option string) : M Response :=
  try_except
    (let session_token := py_or data_session_token authorization in
     (if truthy session_token then
        try_except
          (user <- objects_get db_users (session_lookup session_token now) ;;
           User_save (clear_session user))
          (fun e =>
             match e with
             | DoesNotExist => Some (ret tt)
             | _ => None
             end)
      else ret tt) ;;;
     django_logout ;;;
     ret (mkResponse HTTP_200_OK (JsonMessage "Successfully logged out.")))
    (fun e =>
       Some (ret (mkResponse HTTP_400_BAD_REQUEST
                             (JsonMessageExn "Logout failed: " e)))).

(** ** ValidateTokenView.post *)

Definition ValidateTokenView_post
    (now : Z) (data_session_token : option string) : M Response :=
  let session_token := data_session_token in
  try_except
    (user <- objects_get db_users (session_lookup session_token now) ;;
     ret (mkResponse HTTP_200_OK (JsonUserMessage user "Token is valid")))
    (fun e =>
       match e with
       | DoesNotExist =>
           Some (ret (mkResponse HTTP_401_UNAUTHORIZED
                                 (JsonMessage "Invalid or expired token")))
       | _ => None
       end).

(** ** What the views import from [models.py], [serializers.py] and the
    framework

    These modules are not part of the sources at hand; the views are
    embedded over an arbitrary implementation of the pieces they call. *)

Record RegisterData := mkRegisterData {
  reg_phone_number : option string;
  reg_password : option string;
  reg_first_name : option string;
  reg_last_name : option string;
  reg_email : option string
}.

(** A date field of a request body, as the serializer's [DateTimeField]
    reads it. *)
Inductive DateInput :=
| DateNull
| DateValue (t : Z)
| DateMalformed.

(** [request.data] of the auto-reply endpoint; [None] is an absent key. *)
Record AutoReplyData := mkAutoReplyData {
  put_auto_reply_enabled : option bool;
  put_auto_reply_message : option string;
  put_auto_reply_start_date : option DateInput;
  put_auto_reply_end_date : option DateInput
}.

Class Collaborators := {
  (** [UserRegisterSerializer(data=...).is_valid()] *)
  UserRegisterSerializer_is_valid : RegisterData -> DB -> bool;
  (** the password hasher behind [create_user] *)
  make_password : string -> string;
  (** column defaults of a new [UserProfile] and [UserSettings] row *)
  UserProfile_defaults : UserProfile;
  UserSettings_defaults : UserSettings;
  (** field-level validation of [AutoReplySettingsSerializer] *)
  AutoReplySettingsSerializer_validate : AutoReplyData -> bool;
  (** conversion of a lookup value to a [DateTimeField] value *)
  parse_datetime : string -> option Z;
  (** the predicate [filters.SearchFilter] builds from the search terms *)
  SearchFilter_matches : string -> DB -> Email -> bool
}.

Section Views.

Context {collaborators : Collaborators}.

(** ** Utility functions *)

Definition len (s : string) : Z := Z.of_nat (String.length s).

Definition or_empty (s : option string) : string :=
  match s with
  | Some t => t
  | None => ""
  end.

(** [not phone_number or len(phone_number) < 10 or len(phone_number) > 15];
    [or] stops at [not phone_number] for [None], so that [len] is only
    taken of a string. *)
Definition validate_phone_number (phone_number : option string) : M unit :=
  if negb (truthy phone_number)
     || (len (or_empty phone_number) <? 10)
     || (len (or_empty phone_number) >? 15)
  then raise (ValidationError "Invalid phone number")
  else ret tt.

(** [c.isdigit()] for a character below 256: the decimal digits and the
    superscripts two, three and one. *)
Definition char_isdigit (c : ascii) : bool :=
  let n := Z.of_nat (nat_of_ascii c) in
  ((48 <=? n) && (n <=? 57)) || (n =? 178) || (n =? 179) || (n =? 185).

Fixpoint all_chars (p : ascii -> bool) (s : string) : bool :=
  match s with
  | EmptyString => true
  | String c r => p c && all_chars p r
  end.

Definition isdigit (s : string) : bool :=
  negb (s =? "")%string && all_chars char_isdigit s.

(** [len(code)] raises [TypeError] on [None]. *)
Definition verify_two_factor_code (code : option string) : M bool :=
  match code with
  | None => raise TypeError
  | Some c => ret ((len c =? 6) && isdigit c)
  end.

(** ** RegisterView.post *)

(** Modelled from the spec: [UserRegisterSerializer.save] is missing from
    the sources; it creates the User record from the request fields, with a
    hashed password, no session, and the next primary key. *)
Definition UserRegisterSerializer_save (d : RegisterData) : M User :=
  fun db =>
    let user :=
      mkUser (next_id (map user_id (db_users db)))
             (or_empty (reg_phone_number d))
             (make_password (or_empty (reg_password d)))
             (or_empty (reg_first_name d))
             (or_empty (reg_last_name d))
             (or_empty (reg_email d))
             None None in
    (Return user, set_users (db_users db ++ [user]) db).

(** [UserProfile.objects.create(user=user)].  Modelled from the spec:
    [models.py] is missing from the sources; UserProfile is one-to-one with
    User (the views read it as [request.user.profile]), so a second row for
    a user violates the unique constraint. *)
Definition UserProfile_objects_create (user : User) : M UserProfile :=
  fun db =>
    if existsb (fun p => profile_user p =? user_id user) (db_profiles db)
    then (Raise IntegrityError, db)
    else
      let t := UserProfile_defaults in
      let p :=
        mkUserProfile (next_id (map profile_id (db_profiles db)))
                      (user_id user) (bio t) (birthdate t)
                      (profile_picture t) (two_factor_enabled t) in
      (Return p, set_profiles (db_profiles db ++ [p]) db).

(** [UserSettings.objects.create(user=user)].  Modelled from the spec:
    UserSettings is one-to-one with User as well. *)
Definition UserSettings_objects_create (user : User) : M UserSettings :=
  fun db =>
    if existsb (fun s => settings_user s =? user_id user) (db_settings db)
    then (Raise IntegrityError, db)
    else
      let t := UserSettings_defaults in
      let s :=
        mkUserSettings (next_id (map settings_id (db_settings db)))
                       (user_id user) (auto_reply_enabled t)
                       (auto_reply_message t) (auto_reply_start_date t)
                       (auto_reply_end_date t) (font t) (dark_mode t) in
      (Return s, set_settings (db_settings db ++ [s]) db).

(** [Label.objects.create(user=user, name=..., color=...)] *)
Definition Label_objects_create (user : User) (name color : string) : M Label :=
  fun db =>
    let l :=
      mkLabel (next_id (map label_id (db_labels db))) (user_id user)
              name color in
    (Return l, set_labels (db_labels db ++ [l]) db).

Definition default_labels : list (string * string) :=
  [("Important", "#FF0000"); ("Personal", "#00FF00"); ("Work", "#0000FF")].

(** A [for] loop whose body is run for its effect. *)
Fixpoint for_each {A B} (l : list A) (body : A -> M B) : M unit :=
  match l with
  | [] => ret tt
  | x :: r => body x ;;; for_each r body
  end.

(** [User.objects.filter(phone_number=...).exists()] *)
Definition phone_number_registered (phone : option string) : M bool :=
  fun db =>
    (Return
       (existsb
          (fun u =>
             match phone with
             | Some p => (phone_number u =? p)%string
             | None => false
             end)
          (db_users db)),
     db).

Definition RegisterView_post (request_data : RegisterData) : M Response :=
  db0 <- get_db ;;
  if UserRegisterSerializer_is_valid request_data db0 then
    try_except
      (rejected <-
         try_except
           (validate_phone_number (reg_phone_number request_data) ;;;
            ret None)
           (fun e =>
              match e with
              | ValidationError _ =>
                  Some (ret (Some (mkResponse HTTP_400_BAD_REQUEST
                                     (JsonError "Invalid phone number format"))))
              | _ => None
              end) ;;
       match rejected with
       | Some response => ret response
       | None =>
           registered <-
             phone_number_registered (reg_phone_number request_data) ;;
           if (registered : bool) then
             ret (mkResponse HTTP_400_BAD_REQUEST
                             (JsonError "Phone number already registered."))
           else
             user <- UserRegisterSerializer_save request_data ;;
             UserProfile_objects_create user ;;;
             UserSettings_objects_create user ;;;
             for_each default_labels
               (fun label_data =>
                  Label_objects_create user (fst label_data) (snd label_data)) ;;;
             django_login user ;;;
             ret (mkResponse HTTP_201_CREATED (JsonUser user))
       end)
      (fun e =>
         match e with
         | ValidationError msg =>
             Some (ret (mkResponse HTTP_400_BAD_REQUEST (JsonError msg)))
         | _ => None
         end)
  else ret (mkResponse HTTP_400_BAD_REQUEST JsonSerializerErrors).

(** ** AutoReplySettingsView *)

(** The rows a lookup [user=request.user] selects in the settings table. *)
Definition settings_rows (user : User) (db : DB) : list UserSettings :=
  filter (fun s => settings_user s =? user_id user) (db_settings db).

(** [UserSettings.objects.get_or_create(user=request.user)] *)
Definition UserSettings_objects_get_or_create (user : User)
  : M (UserSettings * bool) :=
  try_except
    (s <- objects_get db_settings
            (fun s => settings_user s =? user_id user) ;;
     ret (s, false))
    (fun e =>
       match e with
       | DoesNotExist =>
           Some (s <- UserSettings_objects_create user ;; ret (s, true))
       | _ => None
       end).

(** [user_settings.save()] *)
Definition UserSettings_save (s : UserSettings) : M unit :=
  fun db =>
    (Return tt,
     set_settings
       (map (fun r => if settings_id r =? settings_id s then s else r)
            (db_settings db))
       db).

Definition date_input_ok (d : option DateInput) : bool :=
  match d with
  | Some DateMalformed => false
  | _ => true
  end.

(** Modelled from the spec: [serializers.py] is missing from the sources;
    [serializer.is_valid()] with [partial=True] performs field-level
    validation, so that every supplied date must parse and the field
    validators must accept the body. *)
Definition AutoReplySettingsSerializer_is_valid (d : AutoReplyData) : bool :=
  date_input_ok (put_auto_reply_start_date d)
  && date_input_ok (put_auto_reply_end_date d)
  && AutoReplySettingsSerializer_validate d.

(** [serializer.validated_data.get(<date field>)]: [None] for an absent key
    and for a null value. *)
Definition validated_date (d : option DateInput) : option Z :=
  match d with
  | Some (DateValue t) => Some t
  | _ => None
  end.

Definition update_date (d : option DateInput) (old : option Z) : option Z :=
  match d with
  | None => old
  | Some i => validated_date (Some i)
  end.

Definition update_field {A} (d : option A) (old : A) : A :=
  match d with
  | None => old
  | Some v => v
  end.

(** [c.isspace()] for a character below 256. *)
Definition char_isspace (c : ascii) : bool :=
  let n := Z.of_nat (nat_of_ascii c) in
  ((9 <=? n) && (n <=? 13)) || ((28 <=? n) && (n <=? 32))
  || (n =? 133) || (n =? 160).

Fixpoint lstrip (s : string) : string :=
  match s with
  | EmptyString => EmptyString
  | String c r => if char_isspace c then lstrip r else s
  end.

Fixpoint rstrip (s : string) : string :=
  match s with
  | EmptyString => EmptyString
  | String c r =>
      let r' := rstrip r in
      if char_isspace c && (r' =? "")%string then EmptyString
      else String c r'
  end.

(** [value.strip()] *)
Definition strip (s : string) : string := rstrip (lstrip s).

(** Modelled from the spec: [serializers.py] is missing from the sources;
    [serializer.validated_data] of a text field is the supplied string with
    the surrounding whitespace trimmed, as a serializer [CharField] does. *)
Definition validated_text (d : option string) : option string :=
  option_map strip d.

(** Modelled from the spec: [serializers.py] is missing from the sources;
    [serializer.save()] on an existing instance performs a partial update,
    so that the validated value of each supplied field is assigned, the
    other fields are kept, and the row is saved. *)
Definition AutoReplySettingsSerializer_save
    (instance : UserSettings) (d : AutoReplyData) : M UserSettings :=
  let s :=
    mkUserSettings (settings_id instance) (settings_user instance)
      (update_field (put_auto_reply_enabled d) (auto_reply_enabled instance))
      (update_field (validated_text (put_auto_reply_message d))
                    (auto_reply_message instance))
      (update_date (put_auto_reply_start_date d)
                   (auto_reply_start_date instance))
      (update_date (put_auto_reply_end_date d)
                   (auto_reply_end_date instance))
      (font instance) (dark_mode instance) in
  UserSettings_save s ;;;
  ret s.

(** [start_date and end_date and start_date > end_date] *)
Definition starts_after (start_date end_date : option Z) : bool :=
  match start_date, end_date with
  | Some s, Some e => s >? e
  | _, _ => false
  end.

Definition AutoReplySettingsView_put
    (request_user : User) (request_data : AutoReplyData) : M Response :=
  try_except
    (gc <- UserSettings_objects_get_or_create request_user ;;
     let user_settings := fst gc in
     if AutoReplySettingsSerializer_is_valid request_data then
       let start_date :=
         validated_date (put_auto_reply_start_date request_data) in
       let end_date :=
         validated_date (put_auto_reply_end_date request_data) in
       if starts_after start_date end_date then
         ret (mkResponse HTTP_400_BAD_REQUEST
                         (JsonError "Start date must be before end date"))
       else
         saved <- AutoReplySettingsSerializer_save
                    user_settings request_data ;;
         ret (mkResponse HTTP_200_OK (JsonAutoReply saved))
     else ret (mkResponse HTTP_400_BAD_REQUEST JsonSerializerErrors))
    (fun e =>
       Some (ret (mkResponse HTTP_500_INTERNAL_SERVER_ERROR
                    (JsonErrorDetails "Unable to update auto-reply settings" e)))).

(** [timezone.timedelta(days=n)] in microseconds *)
Definition timedelta_days (n : Z) : Z := n * 86400 * 1000000.

Definition set_auto_reply_enabled (b : bool) (s : UserSettings) : UserSettings :=
  mkUserSettings (settings_id s) (settings_user s) b (auto_reply_message s)
    (auto_reply_start_date s) (auto_reply_end_date s) (font s) (dark_mode s).

Definition set_auto_reply_start_date (t : option Z) (s : UserSettings)
  : UserSettings :=
  mkUserSettings (settings_id s) (settings_user s) (auto_reply_enabled s)
    (auto_reply_message s) t (auto_reply_end_date s) (font s) (dark_mode s).

Definition set_auto_reply_end_date (t : option Z) (s : UserSettings)
  : UserSettings :=
  mkUserSettings (settings_id s) (settings_user s) (auto_reply_enabled s)
    (auto_reply_message s) (auto_reply_start_date s) t (font s) (dark_mode s).

Definition is_set (t : option Z) : bool :=
  match t with
  | Some _ => true
  | None => false
  end.

(** [now1] is the value of the [timezone.now()] call of the start-date
    assignment, [now2] that of the call of the end-date assignment. *)
Definition AutoReplySettingsView_patch
    (now1 now2 : Z) (request_user : User) : M Response :=
  try_except
    (gc <- UserSettings_objects_get_or_create request_user ;;
     let user_settings := fst gc in
     let user_settings :=
       set_auto_reply_enabled (negb (auto_reply_enabled user_settings))
                              user_settings in
     let user_settings :=
       if auto_reply_enabled user_settings then
         let user_settings :=
           if negb (is_set (auto_reply_start_date user_settings))
           then set_auto_reply_start_date (Some now1) user_settings
           else user_settings in
         if negb (is_set (auto_reply_end_date user_settings))
         then set_auto_reply_end_date (Some (now2 + timedelta_days 30))
                                      user_settings
         else user_settings
       else user_settings in
     UserSettings_save user_settings ;;;
     ret (mkResponse HTTP_200_OK (JsonAutoReply user_settings)))
    (fun e =>
       Some (ret (mkResponse HTTP_500_INTERNAL_SERVER_ERROR
                    (JsonErrorDetails "Unable to toggle auto-reply" e)))).

(** ** AdvancedEmailSearchView *)

(** [self.request.query_params]; [None] is an absent parameter. *)
Record QueryParams := mkQueryParams {
  param_search : option string;
  param_start_date : option string;
  param_end_date : option string;
  param_status : option string;
  param_label : option string;
  param_has_attachments : option string
}.

Definition set_param_has_attachments (v : option string) (p : QueryParams)
  : QueryParams :=
  mkQueryParams (param_search p) (param_start_date p) (param_end_date p)
                (param_status p) (param_label p) v.

Definition option_Z_eqb (a b : option Z) : bool :=
  match a, b with
  | Some x, Some y => x =? y
  | None, None => true
  | _, _ => false
  end.

(** A queryset is the list of rows its SQL query yields: a join on a
    to-many relation yields an email once per related row that passes. *)

(** The rows of the outer join of an email with its recipients. *)
Definition recipients_join (e : Email) : list (option Z) :=
  match recipients e with
  | [] => [None]
  | rs => map Some rs
  end.

(** [Email.objects.filter(Q(recipients=user) | Q(sender=user))] *)
Definition filter_recipient_or_sender (user : User) (emails : list Email)
  : list Email :=
  flat_map
    (fun e =>
       map (fun _ => e)
           (filter
              (fun r => option_Z_eqb r (Some (user_id user))
                        || (sender e =? user_id user))
              (recipients_join e)))
    emails.

(** [.exclude(is_trashed=True)] *)
Definition exclude_trashed (q : list Email) : list Email :=
  filter (fun e => negb (is_trashed e)) q.

(** [.filter(sent_at__range=[start_date, end_date])]; a bound that is not a
    date raises [ValidationError]. *)
Definition filter_sent_at_range (start_date end_date : string)
    (q : list Email) : M (list Email) :=
  match parse_datetime start_date, parse_datetime end_date with
  | Some a, Some b =>
      ret (filter (fun e => (a <=? sent_at e) && (sent_at e <=? b)) q)
  | _, _ => raise (ValidationError "invalid date format")
  end.

(** [.filter(labels__name=label)] *)
Definition filter_labels_name (db : DB) (label : string) (q : list Email)
  : list Email :=
  flat_map
    (fun e =>
       map (fun _ => e)
           (flat_map
              (fun lid =>
                 filter
                   (fun l => (label_id l =? lid)
                             && (label_name l =? label)%string)
                   (db_labels db))
              (labels e)))
    q.

(** [.filter(attachments__isnull=False)] *)
Definition filter_attachments_isnull_false (db : DB) (q : list Email)
  : list Email :=
  flat_map
    (fun e =>
       map (fun _ => e)
           (filter (fun a => attachment_email a =? email_id e)
                   (db_attachments db)))
    q.

Definition Email_eq_dec (a b : Email) : {a = b} + {a <> b}.
Proof.
  decide equality;
    try apply bool_dec; try apply Z.eq_dec; try apply string_dec;
    apply (list_eq_dec Z.eq_dec).
Defined.

(** [.distinct()] *)
Definition distinct (q : list Email) : list Email := nodup Email_eq_dec q.

Definition AdvancedEmailSearchView_get_queryset
    (request_user : User) (params : QueryParams) : M (list Email) :=
  db <- get_db ;;
  let user := request_user in
  let queryset :=
    exclude_trashed (filter_recipient_or_sender user (db_emails db)) in
  let start_date := param_start_date params in
  let end_date := param_end_date params in
  queryset <-
    (if truthy start_date && truthy end_date
     then filter_sent_at_range (or_empty start_date) (or_empty end_date)
                               queryset
     else ret queryset) ;;
  let status := param_status params in
  let queryset :=
    if truthy status then
      if option_string_eqb status (Some "unread")
      then filter (fun e => negb (is_read e)) queryset
      else if option_string_eqb status (Some "starred")
      then filter (fun e => is_starred e) queryset
      else queryset
    else queryset in
  let label := param_label params in
  let queryset :=
    if truthy label then filter_labels_name db (or_empty label) queryset
    else queryset in
  let has_attachments := param_has_attachments params in
  let queryset :=
    if truthy has_attachments
    then distinct (filter_attachments_isnull_false db queryset)
    else queryset in
  ret queryset.

(** [filter_queryset] with [filter_backends = [filters.SearchFilter]]: the
    rows of [get_queryset] that match the search terms, when there are any. *)
Definition AdvancedEmailSearchView_list
    (request_user : User) (params : QueryParams) : M (list Email) :=
  queryset <- AdvancedEmailSearchView_get_queryset request_user params ;;
  db <- get_db ;;
  if truthy (param_search params)
  then ret (filter (SearchFilter_matches (or_empty (param_search params)) db)
                   queryset)
  else ret queryset.

(** ** TwoFactorSetupView.put *)

(** The rows a lookup [user=request.user] selects in the profile table. *)
Definition profile_rows (user : User) (db : DB) : list UserProfile :=
  filter (fun p => profile_user p =? user_id user) (db_profiles db).

(** [request.user.profile], the reverse accessor of the one-to-one field *)
Definition user_profile (user : User) : M UserProfile :=
  try_except
    (objects_get db_profiles (fun p => profile_user p =? user_id user))
    (fun e =>
       match e with
       | DoesNotExist => Some (raise RelatedObjectDoesNotExist)
       | _ => None
       end).

Definition set_two_factor_enabled (b : bool) (p : UserProfile) : UserProfile :=
  mkUserProfile (profile_id p) (profile_user p) (bio p) (birthdate p)
                (profile_picture p) b.

(** [profile.save()] *)
Definition UserProfile_save (p : UserProfile) : M unit :=
  fun db =>
    (Return tt,
     set_profiles
       (map (fun r => if profile_id r =? profile_id p then p else r)
            (db_profiles db))
       db).

Definition TwoFactorSetupView_put
    (request_user : User) (verification_code : option string) : M Response :=
  profile <- user_profile request_user ;;
  let code := verification_code in
  verified <- verify_two_factor_code code ;;
  if (verified : bool) then
    UserProfile_save (set_two_factor_enabled true profile) ;;;
    ret (mkResponse HTTP_200_OK
                    (JsonMessage "Two-factor authentication enabled"))
  else
    ret (mkResponse HTTP_400_BAD_REQUEST
                    (JsonError "Invalid verification code")).

End Views.

(** ** Predicates on the store *)

(** Every label belongs to a stored user (the foreign key of [Label]). *)
Definition labels_have_owner (db : DB) : Prop :=
  forall l, In l (db_labels db) ->
            exists u, In u (db_users db) /\ user_id u = label_user l.

(** An email the caller may see: not trashed, and received or sent by the
    caller. *)
Definition visible_to (user : User) (e : Email) : Prop :=
  is_trashed e = false
  /\ (In (user_id user) (recipients e) \/ sender e = user_id user).

(** * The remaining views and helpers of [views.py] *)

(** ** Store invariants the database enforces *)

(** Primary keys identify a row. *)
Definition user_keys_unique (db : DB) : Prop :=
  NoDup (map user_id (db_users db)).

Definition profile_keys_unique (db : DB) : Prop :=
  NoDup (map profile_id (db_profiles db)).

Definition settings_keys_unique (db : DB) : Prop :=
  NoDup (map settings_id (db_settings db)).

(** Foreign keys of the profile and settings tables. *)
Definition profiles_have_owner (db : DB) : Prop :=
  forall p, In p (db_profiles db) ->
            exists u, In u (db_users db) /\ user_id u = profile_user p.

Definition settings_have_owner (db : DB) : Prop :=
  forall s, In s (db_settings db) ->
            exists u, In u (db_users db) /\ user_id u = settings_user s.

(** Keys and references of the account tables are sound. *)
Definition store_consistent (db : DB) : Prop :=
  user_keys_unique db /\ profiles_have_owner db /\ settings_have_owner db
  /\ labels_have_owner db.

(** The one-to-one relation between users and settings rows. *)
Definition one_settings_row_per_user (db : DB) : Prop :=
  forall user, (List.length (settings_rows user db) <= 1)%nat.

(** A row without a session token has no session expiry either. *)
Definition sessions_well_formed (db : DB) : Prop :=
  forall u, In u (db_users db) ->
            session_token u = None -> session_expiry u = None.

(** Two user rows that differ at most in their session columns. *)
Definition same_account (a b : User) : Prop :=
  user_id a = user_id b /\ phone_number a = phone_number b
  /\ password a = password b /\ first_name a = first_name b
  /\ last_name a = last_name b /\ email a = email b.

(** The phone-number test of [validate_phone_number]. *)
Definition phone_rejected (phone : option string) : bool :=
  negb (truthy phone) || (len (or_empty phone) <? 10)
  || (len (or_empty phone) >? 15).

(** Two profile rows that agree on everything but the two-factor flag,
    which the second has whenever the first has it. *)
Definition profile_upgraded (a b : UserProfile) : Prop :=
  profile_id a = profile_id b /\ profile_user a = profile_user b
  /\ bio a = bio b /\ birthdate a = birthdate b
  /\ profile_picture a = profile_picture b
  /\ (two_factor_enabled a = true -> two_factor_enabled b = true).

(** ** Responses of the views below *)

(** A JSON scalar of a request body. *)
Inductive JsonValue :=
| JsonBool (b : bool)
| JsonNumber (n : Z)
| JsonString (s : string).

Inductive Body :=
| BodyPayload (p : Payload)
| BodyDarkMode (v : JsonValue)
| BodyVerificationCode (message code : string).

Record Reply := mkReply {
  reply_status : Z;
  reply_body : Body
}.

(** ** Decimal rendering of an integer, [str(n)] *)

Definition digit_char (d : Z) : ascii := ascii_of_nat (Z.to_nat (48 + d)).

Fixpoint str_digits (fuel : nat) (n : Z) (acc : string) : string :=
  match fuel with
  | O => acc
  | S f =>
      let acc' := String (digit_char (n mod 10)) acc in
      if n / 10 =? 0 then acc' else str_digits f (n / 10) acc'
  end.

Definition str (n : Z) : string :=
  if n <? 0
  then String "-" (str_digits (S (Z.to_nat (Z.log2 (- n)))) (- n) "")
  else str_digits (S (Z.to_nat (Z.log2 n))) n "".

(** [generate_verification_code]: [randint] is the value drawn by
    [random.randint(100000, 999999)]. *)
Definition generate_verification_code (randint : Z) : string := str randint.

(** [BooleanField.to_python], which a save applies to the value assigned to
    a boolean column: booleans, the numbers 1 and 0 and six spellings are
    accepted. *)
Definition BooleanField_to_python (v : JsonValue) : option bool :=
  match v with
  | JsonBool b => Some b
  | JsonNumber n =>
      if n =? 1 then Some true else if n =? 0 then Some false else None
  | JsonString s =>
      if ((s =? "t") || (s =? "True") || (s =? "1"))%string then Some true
      else if ((s =? "f") || (s =? "False") || (s =? "0"))%string
           then Some false
           else None
  end.

Definition set_dark_mode (b : bool) (s : UserSettings) : UserSettings :=
  mkUserSettings (settings_id s) (settings_user s) (auto_reply_enabled s)
    (auto_reply_message s) (auto_reply_start_date s) (auto_reply_end_date s)
    (font s) b.

(** ** Query parameters *)

Definition set_param_start_date (v : option string) (p : QueryParams)
  : QueryParams :=
  mkQueryParams (param_search p) v (param_end_date p) (param_status p)
                (param_label p) (param_has_attachments p).

Definition set_param_end_date (v : option string) (p : QueryParams)
  : QueryParams :=
  mkQueryParams (param_search p) (param_start_date p) v (param_status p)
                (param_label p) (param_has_attachments p).

Definition set_param_status (v : option string) (p : QueryParams)
  : QueryParams :=
  mkQueryParams (param_search p) (param_start_date p) (param_end_date p) v
                (param_label p) (param_has_attachments p).

(** An email carries a label of the given name. *)
Definition has_label_named (db : DB) (name : string) (e : Email) : Prop :=
  exists l, In (label_id l) (labels e) /\ In l (db_labels db)
            /\ label_name l = name.

(** An email has an attachment row. *)
Definition has_attachment (db : DB) (e : Email) : Prop :=
  exists a, In a (db_attachments db) /\ attachment_email a = email_id e.

Section MoreViews.

Context {collaborators : Collaborators}.

(** ** AutoReplySettingsView.get *)

Definition AutoReplySettingsView_get (request_user : User) : M Response :=
  try_except
    (gc <- UserSettings_objects_get_or_create request_user ;;
     let user_settings := fst gc in
     ret (mkResponse HTTP_200_OK (JsonAutoReply user_settings)))
    (fun e =>
       Some (ret (mkResponse HTTP_500_INTERNAL_SERVER_ERROR
                    (JsonErrorDetails
                       "Unable to retrieve auto-reply settings" e)))).

(** ** DarkModeToggleView *)

Definition DarkModeToggleView_get (request_user : User) : M Reply :=
  try_except
    (gc <- UserSettings_objects_get_or_create request_user ;;
     let user_settings := fst gc in
     ret (mkReply HTTP_200_OK
                  (BodyDarkMode (JsonBool (dark_mode user_settings)))))
    (fun e =>
       Some (ret (mkReply HTTP_500_INTERNAL_SERVER_ERROR
                    (BodyPayload
                       (JsonErrorDetails
                          "Unable to retrieve dark mode setting" e))))).

(** [user_settings.dark_mode = dark_mode; user_settings.save()]: the row is
    written with the converted value, or the conversion fails. *)
Definition save_dark_mode (user_settings : UserSettings) (v : JsonValue)
  : M unit :=
  match BooleanField_to_python v with
  | Some b => UserSettings_save (set_dark_mode b user_settings)
  | None => raise (ValidationError "value must be either True or False.")
  end.

(** [request.data.get("dark_mode")] is [None] for an absent key and for a
    JSON null. *)
Definition DarkModeToggleView_patch
    (request_user : User) (data_dark_mode : option JsonValue) : M Reply :=
  try_except
    (gc <- UserSettings_objects_get_or_create request_user ;;
     let user_settings := fst gc in
     let dark_mode := data_dark_mode in
     match dark_mode with
     | None =>
         ret (mkReply HTTP_400_BAD_REQUEST
                      (BodyPayload (JsonError "dark_mode field is required")))
     | Some v =>
         save_dark_mode user_settings v ;;;
         ret (mkReply HTTP_200_OK (BodyDarkMode v))
     end)
    (fun e =>
       Some (ret (mkReply HTTP_500_INTERNAL_SERVER_ERROR
                    (BodyPayload
                       (JsonErrorDetails "Unable to set dark mode" e))))).

(** ** TwoFactorSetupView.post *)

Definition TwoFactorSetupView_post (randint : Z) (request_user : User)
  : M Reply :=
  profile <- user_profile request_user ;;
  let verification_code := generate_verification_code randint in
  ret (mkReply HTTP_200_OK
               (BodyVerificationCode "Verification code generated"
                                     verification_code)).

End MoreViews.

(** ** Concrete stores and collaborators used in the examples below *)

(** Decimal reading of a string of digits, used as the date conversion of
    the examples. *)
Definition digit_value (c : ascii) : option Z :=
  let n := Z.of_nat (nat_of_ascii c) in
  if (48 <=? n) && (n <=? 57) then Some (n - 48) else None.

Fixpoint parse_digits (acc : Z) (s : string) : option Z :=
  match s with
  | EmptyString => Some acc
  | String c r =>
      match digit_value c with
      | Some d => parse_digits (10 * acc + d) r
      | None => None
      end
  end.

(** The simplest collaborators: every body is valid, the hasher is the
    identity, new rows start blank, a date is written as its timestamp, and
    the search predicate looks for the exact subject. *)
Definition sample_collaborators : Collaborators := {|
  UserRegisterSerializer_is_valid := fun _ _ => true;
  make_password := fun p => p;
  UserProfile_defaults := mkUserProfile 0 0 "" None None false;
  UserSettings_defaults := mkUserSettings 0 0 false "" None None "Arial" false;
  AutoReplySettingsSerializer_validate := fun _ => true;
  parse_datetime := fun s => if (s =? "")%string then None else parse_digits 0 s;
  SearchFilter_matches := fun term _ e => (subject e =? term)%string
|}.

Definition alice : User :=
  mkUser 1 "0123456789" "pw-a" "Alice" "A" "alice@example.org"
         (Some "tok-alice") (Some 1000).

Definition bob : User :=
  mkUser 2 "0987654321" "pw-b" "Bob" "B" "bob@example.org"
         (Some "tok-bob") (Some 50).

Definition carol : User :=
  mkUser 3 "0555555555" "pw-c" "Carol" "C" "carol@example.org" None None.

Definition sample_db : DB :=
  mkDB [alice; bob; carol]
       [mkUserProfile 1 1 "" None None false;
        mkUserProfile 2 2 "" None None false]
       [mkUserSettings 1 1 false "" None None "Arial" false;
        mkUserSettings 2 2 true "away" (Some 10) (Some 20) "Arial" false]
       [mkLabel 1 1 "Important" "#FF0000"; mkLabel 2 1 "Work" "#0000FF"]
       [mkEmail 1 2 [1] "hello" "first" 100 false false false [1];
        mkEmail 2 1 [2; 3] "report" "second" 200 true true false [2];
        mkEmail 3 2 [1] "old" "third" 300 true false true [];
        mkEmail 4 2 [3] "other" "fourth" 400 false false false []]
       [mkAttachment 1 1 "a.txt"; mkAttachment 2 1 "b.txt";
        mkAttachment 3 4 "c.txt"].

Definition short_phone_registration : RegisterData :=
  mkRegisterData (Some "12345") (Some "secret") (Some "Dan") (Some "D")
                 (Some "dan@example.org").

Definition new_registration : RegisterData :=
  mkRegisterData (Some "0111111111") (Some "secret") (Some "Dan") (Some "D")
                 (Some "dan@example.org").

Definition dan : User :=
  mkUser 4 "0111111111" "secret" "Dan" "D" "dan@example.org" None None.

(** The store after [new_registration] on [sample_db]. *)
Definition registered_db : DB :=
  Eval vm_compute in
    snd (RegisterView_post (collaborators := sample_collaborators)
           new_registration sample_db).

(** Auto-reply bodies: a window whose bounds coincide, and one whose start
    is after its end. *)
Definition equal_dates_put : AutoReplyData :=
  mkAutoReplyData (Some true) (Some "away") (Some (DateValue 500))
                  (Some (DateValue 500)).

Definition inverted_dates_put : AutoReplyData :=
  mkAutoReplyData (Some true) (Some "away") (Some (DateValue 600))
                  (Some (DateValue 500)).

Definition no_params : QueryParams :=
  mkQueryParams None None None None None None.

Definition unread_with_attachments : QueryParams :=
  mkQueryParams None (Some "50") (Some "350") (Some "unread") None
                (Some "true").

Definition first_email : Email :=
  mkEmail 1 2 [1] "hello" "first" 100 false false false [1].

Definition second_email : Email :=
  mkEmail 2 1 [2; 3] "report" "second" 200 true true false [2].

(** The store after carol's first read of her settings. *)
Definition carol_settings : UserSettings :=
  mkUserSettings 3 3 false "" None None "Arial" false.




(** * Properties *)

(** ** Generic facts about the handler monad and the query interface *)

Lemma filter_map_nil {A} (p : A -> bool) (f : A -> A) (l : list A) :
  (forall x, In x l -> p (f x) = false) ->
  filter p (map f l) = [].
Proof.
  induction l as [|a l IH]; intros H; simpl.
  - reflexivity.
  - rewrite (H a (or_introl eq_refl)).
    apply IH. intros x Hx. apply H. right. exact Hx.
Qed.

Lemma truthy_Some (t : string) : t <> "" -> truthy (Some t) = true.
Proof.
  intros H. simpl. destruct (String.eqb_spec t ""); [contradiction | reflexivity].
Qed.


(** A row is a live session for a token exactly when it stores the token
    and an expiry strictly after the current time. *)
Lemma session_lookup_true (t : string) (now : Z) (u : User) :
  session_lookup (Some t) now u = true <->
  session_token u = Some t /\ exists e, session_expiry u = Some e /\ now < e.
Proof.
  unfold session_lookup, session_token_exact, session_expiry_gt, option_string_eqb.
  rewrite andb_true_iff. split.
  - intros [Ht He].
    destruct (session_token u) as [s|]; [|discriminate].
    apply String.eqb_eq in Ht. subst s. split; [reflexivity|].
    destruct (session_expiry u) as [e|]; [|discriminate].
    exists e. split; [reflexivity | apply Z.ltb_lt; exact He].
  - intros [Ht [e [He Hlt]]]. rewrite Ht, He. split.
    + apply String.eqb_refl.
    + apply Z.ltb_lt. exact Hlt.
Qed.

Lemma live_sessions_In (t : string) (now : Z) (db : DB) (u : User) :
  In u (live_sessions (Some t) now db) <->
  In u (db_users db) /\ session_token u = Some t /\
  exists e, session_expiry u = Some e /\ now < e.
Proof.
  unfold live_sessions. rewrite filter_In, session_lookup_true. reflexivity.
Qed.

(** A session that is live at a later time is live now. *)
Lemma session_lookup_earlier (tok : option string) (now now' : Z) (u : User) :
  now <= now' ->
  session_lookup tok now' u = true -> session_lookup tok now u = true.
Proof.
  unfold session_lookup, session_expiry_gt. intros Hle.
  rewrite !andb_true_iff. intros [Ht He]. split; [exact Ht|].
  destruct (session_expiry u) as [e|]; [|discriminate].
  apply Z.ltb_lt. apply Z.ltb_lt in He. lia.
Qed.

Lemma session_lookup_clear (t : string) (now : Z) (u : User) :
  session_lookup (Some t) now (clear_session u) = false.
Proof. reflexivity. Qed.

(** Once the only live session of a token is cleared, the token has no
    live session at any later time. *)
Lemma live_sessions_after_clear (t : string) (now now' : Z) (u : User) (db : DB) :
  live_sessions (Some t) now db = [u] ->
  now <= now' ->
  live_sessions (Some t) now'
    (set_users
       (map (fun r => if user_id r =? user_id u then clear_session u else r)
            (db_users db))
       db) = [].
Proof.
  intros Hlive Hle. unfold live_sessions at 1. simpl.
  apply filter_map_nil. intros x Hx.
  destruct (user_id x =? user_id u) eqn:Hid.
  - apply session_lookup_clear.
  - destruct (session_lookup (Some t) now' x) eqn:Hl; [|reflexivity].
    apply (session_lookup_earlier _ now) in Hl; [|exact Hle].
    assert (Hin : In x (live_sessions (Some t) now db)).
    { unfold live_sessions. apply filter_In. split; assumption. }
    rewrite Hlive in Hin. destruct Hin as [Heq|[]]. subst x.
    rewrite Z.eqb_refl in Hid. discriminate.
Qed.

(** ** Session authentication *)

(** C1. The session authenticator returns the unique user whose stored
    session_token equals the Authorization header and whose session_expiry
    is strictly after the current time; an absent header yields anonymous
    ([None]), a token with no matching non-expired user fails with
    [AuthenticationFailed], and the store is never modified. *)
Theorem authenticate_spec (now : Z) (authorization : option string) (db : DB) :
  snd (SessionTokenAuthentication_authenticate now authorization db) = db /\
  (authorization = None ->
   fst (SessionTokenAuthentication_authenticate now authorization db)
   = Return None) /\
  (forall t u,
     authorization = Some t -> t <> "" ->
     live_sessions (Some t) now db = [u] ->
     fst (SessionTokenAuthentication_authenticate now authorization db)
     = Return (Some u)
     /\ In u (db_users db) /\ session_token u = Some t
     /\ exists e, session_expiry u = Some e /\ now < e) /\
  (forall t,
     authorization = Some t -> t <> "" ->
     (forall u e, In u (db_users db) -> session_token u = Some t ->
                  session_expiry u = Some e -> ~ now < e) ->
     fst (SessionTokenAuthentication_authenticate now authorization db)
     = Raise (AuthenticationFailed "Invalid or expired token")).
Proof.
  unfold SessionTokenAuthentication_authenticate.
  split; [|split; [|split]].
  - destruct (truthy authorization); simpl; [|reflexivity].
    unfold try_except, bind, objects_get.
    destruct (filter _ (db_users db)) as [|r [|r' l]]; reflexivity.
  - intros ->. reflexivity.
  - intros t u -> Ht Hlive. rewrite (truthy_Some t Ht). simpl.
    assert (Hin : In u (live_sessions (Some t) now db))
      by (rewrite Hlive; left; reflexivity).
    apply live_sessions_In in Hin.
    split; [|exact Hin].
    unfold try_except, bind, objects_get.
    unfold live_sessions in Hlive. rewrite Hlive. reflexivity.
  - intros t -> Ht Hnone. rewrite (truthy_Some t Ht). simpl.
    unfold try_except, bind, objects_get.
    destruct (filter _ (db_users db)) as [|r l] eqn:Hf; [reflexivity|].
    exfalso.
    assert (Hin : In r (live_sessions (Some t) now db)).
    { unfold live_sessions. rewrite Hf. left. reflexivity. }
    apply live_sessions_In in Hin. destruct Hin as (Hu & Htok & e & He & Hlt).
    exact (Hnone r e Hu Htok He Hlt).
Qed.

Lemma authenticate_spec_witness :
  SessionTokenAuthentication_authenticate 100 (Some "tok-alice") sample_db
  = (Return (Some alice), sample_db)
  /\ SessionTokenAuthentication_authenticate 100 (Some "tok-bob") sample_db
     = (Raise (AuthenticationFailed "Invalid or expired token"), sample_db)
  /\ SessionTokenAuthentication_authenticate 100 None sample_db
     = (Return None, sample_db).
Proof.
  split; [|split].
  - destruct (authenticate_spec 100 (Some "tok-alice") sample_db)
      as (Hs & _ & Hu & _).
    destruct (Hu "tok-alice" alice eq_refl ltac:(discriminate) eq_refl)
      as (Hr & _).
    rewrite (surjective_pairing (SessionTokenAuthentication_authenticate _ _ _)).
    rewrite Hs, Hr. reflexivity.
  - destruct (authenticate_spec 100 (Some "tok-bob") sample_db)
      as (Hs & _ & _ & Hf).
    rewrite (surjective_pairing (SessionTokenAuthentication_authenticate _ _ _)).
    rewrite Hs, (Hf "tok-bob" eq_refl ltac:(discriminate)); [reflexivity|].
    intros u e Hin Htok He.
    simpl in Hin. destruct Hin as [<-|[<-|[<-|[]]]]; simpl in Htok, He;
      try discriminate.
    injection He as <-. lia.
  - destruct (authenticate_spec 100 None sample_db) as (Hs & Hn & _).
    rewrite (surjective_pairing (SessionTokenAuthentication_authenticate _ _ _)).
    rewrite Hs, (Hn eq_refl). reflexivity.
Defined.

(** An Authorization header that is present but empty is treated as an
    absent one. *)
Lemma authenticate_empty_header (now : Z) (db : DB) :
  SessionTokenAuthentication_authenticate now (Some "") db = (Return None, db).
Proof. reflexivity. Qed.

(** When several rows hold the token with a live expiry,
    [MultipleObjectsReturned] leaves the authenticator. *)
Lemma authenticate_ambiguous_token
    (now : Z) (t : string) (db : DB) (u v : User) (l : list User) :
  t <> "" ->
  live_sessions (Some t) now db = u :: v :: l ->
  SessionTokenAuthentication_authenticate now (Some t) db
  = (Raise MultipleObjectsReturned, db).
Proof.
  intros Ht Hl. unfold SessionTokenAuthentication_authenticate.
  rewrite (truthy_Some t Ht). simpl.
  unfold try_except, bind, objects_get.
  unfold live_sessions in Hl. rewrite Hl. reflexivity.
Qed.

(** ** Logout and token validation *)


Lemma logout_without_token (now : Z) (body hdr : option string) (db : DB) :
  truthy (py_or body hdr) = false ->
  LogoutView_post now body hdr db
  = (Return (mkResponse HTTP_200_OK (JsonMessage "Successfully logged out.")),
     db).
Proof.
  intros Hf. unfold LogoutView_post, try_except, bind. rewrite Hf. reflexivity.
Qed.

Lemma logout_unknown_token (now : Z) (body hdr : option string) (db : DB) :
  truthy (py_or body hdr) = true ->
  live_sessions (py_or body hdr) now db = [] ->
  LogoutView_post now body hdr db
  = (Return (mkResponse HTTP_200_OK (JsonMessage "Successfully logged out.")),
     db).
Proof.
  intros Ht Hl. unfold LogoutView_post, try_except, bind, objects_get.
  rewrite Ht. unfold live_sessions in Hl. rewrite Hl. reflexivity.
Qed.

Lemma logout_live_token (now : Z) (body hdr : option string) (u : User) (db : DB) :
  truthy (py_or body hdr) = true ->
  live_sessions (py_or body hdr) now db = [u] ->
  LogoutView_post now body hdr db
  = (Return (mkResponse HTTP_200_OK (JsonMessage "Successfully logged out.")),
     set_users
       (map (fun r => if user_id r =? user_id u then clear_session u else r)
            (db_users db))
       db).
Proof.
  intros Ht Hl. unfold LogoutView_post, try_except, bind, objects_get.
  rewrite Ht. unfold live_sessions in Hl. rewrite Hl. reflexivity.
Qed.

(** With several live sessions for the token, the lookup raises
    [MultipleObjectsReturned] and the outer handler answers 400. *)
Lemma logout_ambiguous_token
    (now : Z) (body hdr : option string) (u v : User) (l : list User) (db : DB) :
  truthy (py_or body hdr) = true ->
  live_sessions (py_or body hdr) now db = u :: v :: l ->
  LogoutView_post now body hdr db
  = (Return (mkResponse HTTP_400_BAD_REQUEST
               (JsonMessageExn "Logout failed: " MultipleObjectsReturned)),
     db).
Proof.
  intros Ht Hl. unfold LogoutView_post, try_except, bind, objects_get.
  rewrite Ht. unfold live_sessions in Hl. rewrite Hl. reflexivity.
Qed.

(** C2. When a token T resolves to a live session, logout with T clears
    that user's session_token and session_expiry, and a later validate-token
    call with T answers 401 "Invalid or expired token", whether or not the
    original expiry has passed. *)
Theorem logout_invalidates_token
    (now now' : Z) (T : string) (body hdr : option string) (u : User) (db : DB) :
  py_or body hdr = Some T ->
  T <> "" ->
  live_sessions (Some T) now db = [u] ->
  now <= now' ->
  exists db1,
    LogoutView_post now body hdr db
    = (Return (mkResponse HTTP_200_OK (JsonMessage "Successfully logged out.")),
       db1)
    /\ db_users db1
       = map (fun r => if user_id r =? user_id u then clear_session u else r)
             (db_users db)
    /\ (forall v, In v (db_users db1) -> user_id v = user_id u ->
                  session_token v = None /\ session_expiry v = None)
    /\ ValidateTokenView_post now' (Some T) db1
       = (Return (mkResponse HTTP_401_UNAUTHORIZED
                             (JsonMessage "Invalid or expired token")),
          db1).
Proof.
  intros Htok HT Hlive Hle.
  eexists. split; [|split; [|split]].
  - apply logout_live_token; rewrite Htok.
    + apply truthy_Some. exact HT.
    + exact Hlive.
  - reflexivity.
  - simpl. intros v Hin Hid. apply in_map_iff in Hin.
    destruct Hin as (r & Hr & _).
    destruct (user_id r =? user_id u) eqn:E.
    + subst v. split; reflexivity.
    + subst v. apply Z.eqb_neq in E. contradiction.
  - unfold ValidateTokenView_post, try_except, bind, objects_get.
    pose proof (live_sessions_after_clear T now now' u db Hlive Hle) as Hnil.
    unfold live_sessions in Hnil. rewrite Hnil. reflexivity.
Qed.

Lemma logout_invalidates_token_witness :
  exists db1,
    LogoutView_post 100 (Some "tok-alice") None sample_db
    = (Return (mkResponse HTTP_200_OK (JsonMessage "Successfully logged out.")),
       db1)
    /\ db_users db1 = [clear_session alice; bob; carol]
    /\ ValidateTokenView_post 101 (Some "tok-alice") db1
       = (Return (mkResponse HTTP_401_UNAUTHORIZED
                             (JsonMessage "Invalid or expired token")),
          db1)
    /\ ValidateTokenView_post 101 (Some "tok-alice") sample_db
       = (Return (mkResponse HTTP_200_OK
                             (JsonUserMessage alice "Token is valid")),
          sample_db).
Proof.
  destruct (logout_invalidates_token 100 101 "tok-alice" (Some "tok-alice")
              None alice sample_db eq_refl ltac:(discriminate) eq_refl
              ltac:(lia))
    as (db1 & Hout & Husers & _ & Hval).
  exists db1. split; [exact Hout|]. split; [exact Husers|].
  split; [exact Hval | reflexivity].
Defined.




(** ** Registration *)

Section Registration.

Context {collaborators : Collaborators}.

(** C4. A registration whose phone number is shorter than 10 or longer
    than 15 characters is answered 400 with a validation error, and the
    store (so the user table) is unchanged. *)
Theorem register_rejects_bad_phone_length
    (d : RegisterData) (p : string) (db : DB) :
  reg_phone_number d = Some p ->
  len p < 10 \/ len p > 15 ->
  exists payload,
    RegisterView_post d db
    = (Return (mkResponse HTTP_400_BAD_REQUEST payload), db)
    /\ (payload = JsonError "Invalid phone number format"
        \/ payload = JsonSerializerErrors).
Proof.
  intros Hp Hlen.
  assert (Hbad : negb (truthy (Some p)) || (len (or_empty (Some p)) <? 10)
                 || (len (or_empty (Some p)) >? 15)
                 = true).
  { cbn [or_empty]. destruct Hlen as [H|H].
    - apply Z.ltb_lt in H. rewrite H. rewrite orb_true_r. reflexivity.
    - apply Z.gt_lt, Z.gtb_lt in H. rewrite H. apply orb_true_r. }
  unfold RegisterView_post, bind, get_db.
  destruct (UserRegisterSerializer_is_valid d db).
  - exists (JsonError "Invalid phone number format"). split; [|left; reflexivity].
    unfold try_except, bind, validate_phone_number.
    rewrite Hp, Hbad. reflexivity.
  - exists JsonSerializerErrors. split; [reflexivity | right; reflexivity].
Qed.

Lemma fold_max_upper (ids : list Z) (x : Z) :
  In x ids -> x <= fold_right Z.max 0 ids.
Proof.
  induction ids as [|a l IH]; simpl; intros Hin.
  - destruct Hin.
  - destruct Hin as [->|Hin].
    + apply Z.le_max_l.
    + specialize (IH Hin). lia.
Qed.

(** The next primary key is none of the keys in use. *)
Lemma next_id_fresh (ids : list Z) : ~ In (next_id ids) ids.
Proof.
  intros Hin. apply fold_max_upper in Hin. unfold next_id in Hin. lia.
Qed.

Lemma existsb_false_filter {A} (p : A -> bool) (l : list A) :
  existsb p l = false -> filter p l = [].
Proof.
  induction l as [|a l IH]; simpl; [reflexivity|].
  destruct (p a); simpl; [discriminate | exact IH].
Qed.

Lemma UserProfile_objects_create_inv
    (user : User) (db db2 : DB) (p : UserProfile) :
  UserProfile_objects_create user db = (Return p, db2) ->
  existsb (fun r => profile_user r =? user_id user) (db_profiles db) = false
  /\ profile_user p = user_id user
  /\ db2 = set_profiles (db_profiles db ++ [p]) db.
Proof.
  unfold UserProfile_objects_create.
  destruct (existsb _ (db_profiles db)); [discriminate|].
  intros H. injection H as <- <-. repeat split.
Qed.

Lemma UserSettings_objects_create_inv
    (user : User) (db db2 : DB) (s : UserSettings) :
  UserSettings_objects_create user db = (Return s, db2) ->
  existsb (fun r => settings_user r =? user_id user) (db_settings db) = false
  /\ settings_user s = user_id user
  /\ db2 = set_settings (db_settings db ++ [s]) db.
Proof.
  unfold UserSettings_objects_create.
  destruct (existsb _ (db_settings db)); [discriminate|].
  intros H. injection H as <- <-. repeat split.
Qed.

(** The loop over [default_labels] appends the three labels. *)
Lemma create_default_labels (user : User) (db : DB) :
  exists i1 i2 i3,
    for_each default_labels
      (fun label_data =>
         Label_objects_create user (fst label_data) (snd label_data)) db
    = (Return tt,
       set_labels
         (db_labels db ++ [mkLabel i1 (user_id user) "Important" "#FF0000";
                           mkLabel i2 (user_id user) "Personal" "#00FF00";
                           mkLabel i3 (user_id user) "Work" "#0000FF"])
         db).
Proof.
  do 3 eexists. unfold default_labels, for_each, bind, Label_objects_create, ret.
  simpl. unfold set_labels. simpl. rewrite <- !app_assoc. simpl. reflexivity.
Qed.

(** Closes a branch whose answer is an exception or another status. *)
Ltac wrong_answer :=
  let H := fresh "H" in
  let Hst := fresh "Hst" in
  intros H Hst;
  first [ discriminate H
        | injection H as <- <-; discriminate Hst ].

(** What a registration answered 201 has done to the store. *)
Lemma register_created_inv (d : RegisterData) (db db' : DB) (resp : Response) :
  RegisterView_post d db = (Return resp, db') ->
  status_code resp = HTTP_201_CREATED ->
  let uid := next_id (map user_id (db_users db)) in
  let user :=
    mkUser uid (or_empty (reg_phone_number d))
           (make_password (or_empty (reg_password d)))
           (or_empty (reg_first_name d)) (or_empty (reg_last_name d))
           (or_empty (reg_email d)) None None in
  resp = mkResponse HTTP_201_CREATED (JsonUser user)
  /\ existsb (fun p => profile_user p =? uid) (db_profiles db) = false
  /\ existsb (fun s => settings_user s =? uid) (db_settings db) = false
  /\ db_users db' = (db_users db ++ [user])%list
  /\ (exists p, db_profiles db' = (db_profiles db ++ [p])%list
                /\ profile_user p = uid)
  /\ (exists s, db_settings db' = (db_settings db ++ [s])%list
                /\ settings_user s = uid)
  /\ (exists i1 i2 i3,
        db_labels db'
        = (db_labels db ++ [mkLabel i1 uid "Important" "#FF0000";
                            mkLabel i2 uid "Personal" "#00FF00";
                            mkLabel i3 uid "Work" "#0000FF"])%list).
Proof.
  cbv zeta.
  unfold RegisterView_post, bind at 1, get_db.
  destruct (UserRegisterSerializer_is_valid d db); [|wrong_answer].
  unfold try_except at 1, bind at 1, try_except at 1, bind at 1,
    validate_phone_number.
  match goal with
  | |- context [if ?c then raise _ else ret tt] =>
      destruct c eqn:Hphone; [wrong_answer|]
  end.
  cbv beta iota delta [ret raise].
  unfold bind at 1, phone_number_registered.
  destruct (existsb _ (db_users db)); [wrong_answer|].
  unfold bind at 1, UserRegisterSerializer_save.
  unfold bind at 1.
  match goal with
  | |- context [UserProfile_objects_create ?u ?x] =>
      destruct (UserProfile_objects_create u x) as [[p0|e] db2] eqn:Ep;
      [|destruct e; wrong_answer]
  end.
  apply UserProfile_objects_create_inv in Ep.
  destruct Ep as (Ep & Hpu & ->).
  unfold bind at 1.
  match goal with
  | |- context [UserSettings_objects_create ?u ?x] =>
      destruct (UserSettings_objects_create u x) as [[s0|e] db3] eqn:Es;
      [|destruct e; wrong_answer]
  end.
  apply UserSettings_objects_create_inv in Es.
  destruct Es as (Es & Hsu & ->).
  unfold bind at 1.
  match goal with
  | |- context [for_each default_labels (fun l => Label_objects_create ?u _ _) ?x] =>
      destruct (create_default_labels u x) as (i1 & i2 & i3 & Hl)
  end.
  rewrite Hl. unfold bind, django_login, ret.
  intros H _. injection H as <- <-.
  simpl in Ep, Es, Hpu, Hsu. simpl.
  split; [reflexivity|]. split; [exact Ep|]. split; [exact Es|].
  split; [reflexivity|].
  split; [exists p0; split; [reflexivity | exact Hpu]|].
  split; [exists s0; split; [reflexivity | exact Hsu]|].
  exists i1, i2, i3. reflexivity.
Qed.

(** C5. After a registration answered 201 the new user has exactly one
    UserProfile, exactly one UserSettings and exactly three Labels, named
    Important, Personal and Work.  The label table is assumed to respect
    its foreign key to the user table. *)
Theorem register_creates_defaults
    (d : RegisterData) (db db' : DB) (resp : Response) :
  labels_have_owner db ->
  RegisterView_post d db = (Return resp, db') ->
  status_code resp = HTTP_201_CREATED ->
  exists user,
    data resp = JsonUser user
    /\ db_users db' = (db_users db ++ [user])%list
    /\ ~ In (user_id user) (map user_id (db_users db))
    /\ (exists p,
          filter (fun p => profile_user p =? user_id user) (db_profiles db')
          = [p])
    /\ (exists s,
          filter (fun s => settings_user s =? user_id user) (db_settings db')
          = [s])
    /\ map label_name
           (filter (fun l => label_user l =? user_id user) (db_labels db'))
       = ["Important"; "Personal"; "Work"].
Proof.
  intros Hfk Hrun Hst.
  destruct (register_created_inv d db db' resp Hrun Hst)
    as (Hresp & Ep & Es & Hu & (p & Hp & Hpu) & (s & Hs & Hsu)
        & (i1 & i2 & i3 & Hl)).
  eexists. split; [rewrite Hresp; reflexivity|].
  cbn [user_id].
  split; [exact Hu|]. split; [apply next_id_fresh|].
  split; [|split].
  - exists p. rewrite Hp, filter_app, (existsb_false_filter _ _ Ep). simpl.
    rewrite Hpu, Z.eqb_refl. reflexivity.
  - exists s. rewrite Hs, filter_app, (existsb_false_filter _ _ Es). simpl.
    rewrite Hsu, Z.eqb_refl. reflexivity.
  - rewrite Hl, filter_app.
    assert (Hold : filter
                     (fun l => label_user l
                               =? next_id (map user_id (db_users db)))
                     (db_labels db) = []).
    { apply existsb_false_filter.
      destruct (existsb _ (db_labels db)) eqn:E; [|reflexivity].
      apply existsb_exists in E. destruct E as (l & Hin & Heq).
      apply Z.eqb_eq in Heq.
      destruct (Hfk l Hin) as (u & Hu' & Hid).
      exfalso. apply (next_id_fresh (map user_id (db_users db))).
      rewrite <- Heq, <- Hid. apply in_map. exact Hu'. }
    rewrite Hold. simpl. rewrite Z.eqb_refl. reflexivity.
Qed.

End Registration.

Lemma register_rejects_bad_phone_length_witness :
  exists payload,
    RegisterView_post (collaborators := sample_collaborators)
      short_phone_registration sample_db
    = (Return (mkResponse HTTP_400_BAD_REQUEST payload), sample_db)
    /\ (payload = JsonError "Invalid phone number format"
        \/ payload = JsonSerializerErrors).
Proof.
  apply (register_rejects_bad_phone_length (collaborators := sample_collaborators)
           short_phone_registration "12345" sample_db eq_refl).
  left. vm_compute. reflexivity.
Defined.

Lemma sample_db_labels_have_owner : labels_have_owner sample_db.
Proof.
  intros l Hin. exists alice. split; [left; reflexivity|].
  simpl in Hin. destruct Hin as [<-|[<-|[]]]; reflexivity.
Qed.

Lemma register_creates_defaults_witness :
  RegisterView_post (collaborators := sample_collaborators)
    new_registration sample_db
  = (Return (mkResponse HTTP_201_CREATED (JsonUser dan)), registered_db)
  /\ exists user,
       JsonUser dan = JsonUser user
       /\ db_users registered_db = (db_users sample_db ++ [user])%list
       /\ ~ In (user_id user) (map user_id (db_users sample_db))
       /\ (exists p,
             filter (fun p => profile_user p =? user_id user)
                    (db_profiles registered_db) = [p])
       /\ (exists s,
             filter (fun s => settings_user s =? user_id user)
                    (db_settings registered_db) = [s])
       /\ map label_name
              (filter (fun l => label_user l =? user_id user)
                      (db_labels registered_db))
          = ["Important"; "Personal"; "Work"].
Proof.
  assert (Hrun : RegisterView_post (collaborators := sample_collaborators)
                   new_registration sample_db
                 = (Return (mkResponse HTTP_201_CREATED (JsonUser dan)),
                    registered_db))
    by (vm_compute; reflexivity).
  split; [exact Hrun|].
  exact (register_creates_defaults (collaborators := sample_collaborators)
           new_registration sample_db registered_db
           (mkResponse HTTP_201_CREATED (JsonUser dan))
           sample_db_labels_have_owner Hrun eq_refl).
Defined.

(** ** Auto-reply settings *)

Section AutoReply.

Context {collaborators : Collaborators}.

Lemma filter_nil_existsb {A} (p : A -> bool) (l : list A) :
  filter p l = [] -> existsb p l = false.
Proof.
  induction l as [|a l IH]; simpl; [reflexivity|].
  destruct (p a); [discriminate | exact IH].
Qed.

Lemma get_or_create_existing (user : User) (db : DB) (row : UserSettings) :
  settings_rows user db = [row] ->
  UserSettings_objects_get_or_create user db = (Return (row, false), db).
Proof.
  intros Hf.
  unfold UserSettings_objects_get_or_create, try_except, bind, objects_get.
  unfold settings_rows in Hf. rewrite Hf. reflexivity.
Qed.

Lemma get_or_create_missing (user : User) (db : DB) :
  settings_rows user db = [] ->
  exists row,
    UserSettings_objects_create user db
    = (Return row, set_settings (db_settings db ++ [row]) db)
    /\ UserSettings_objects_get_or_create user db
       = (Return (row, true), set_settings (db_settings db ++ [row]) db).
Proof.
  intros Hf.
  unfold UserSettings_objects_get_or_create, try_except, bind, objects_get.
  unfold settings_rows in Hf. rewrite Hf. unfold UserSettings_objects_create.
  rewrite (filter_nil_existsb _ _ Hf).
  eexists. split; reflexivity.
Qed.

(** The row [get_or_create] hands out is stored. *)
Lemma get_or_create_stored
    (user : User) (db db0 : DB) (row : UserSettings) (created : bool) :
  UserSettings_objects_get_or_create user db = (Return (row, created), db0) ->
  In row (db_settings db0).
Proof.
  destruct (settings_rows user db)
    as [|r [|r' l]] eqn:Hf.
  - destruct (get_or_create_missing user db Hf) as (s & _ & ->).
    intros H. injection H as <- _ <-. simpl. apply in_or_app. right. left.
    reflexivity.
  - rewrite (get_or_create_existing user db r Hf).
    intros H. injection H as <- _ <-.
    assert (Hin : In r [r]) by (left; reflexivity).
    rewrite <- Hf in Hin. apply filter_In in Hin. apply Hin.
  - unfold UserSettings_objects_get_or_create, try_except, bind, objects_get.
    unfold settings_rows in Hf. rewrite Hf. discriminate.
Qed.

(** The body of [put] once the settings row is at hand and the window is
    inverted. *)
Lemma put_inverted_after_get
    (user : User) (d : AutoReplyData) (db db0 : DB) (gc : UserSettings * bool)
    (s e : Z) :
  put_auto_reply_start_date d = Some (DateValue s) ->
  put_auto_reply_end_date d = Some (DateValue e) ->
  s > e ->
  UserSettings_objects_get_or_create user db = (Return gc, db0) ->
  exists payload,
    AutoReplySettingsView_put user d db
    = (Return (mkResponse HTTP_400_BAD_REQUEST payload), db0)
    /\ (payload = JsonError "Start date must be before end date"
        \/ payload = JsonSerializerErrors).
Proof.
  intros Hs He Hgt Hget.
  unfold AutoReplySettingsView_put, try_except, bind. rewrite Hget.
  destruct (AutoReplySettingsSerializer_is_valid d).
  - rewrite Hs, He. simpl.
    assert (Hb : (s >? e) = true) by (apply Z.gtb_lt; lia).
    rewrite Hb. eexists. split; [reflexivity | left; reflexivity].
  - eexists. split; [reflexivity | right; reflexivity].
Qed.

(** C6 (as amended). An auto-reply PUT whose start_date and end_date are
    both supplied, with start_date strictly after end_date, is answered 400
    and writes no supplied field: the store is unchanged when the user has a
    settings row, and otherwise the only change is the default row that
    get-or-create inserts.  The settings table is assumed to hold at most
    one row per user. *)
Theorem auto_reply_put_rejects_inverted_range
    (user : User) (d : AutoReplyData) (db : DB) (s e : Z) :
  put_auto_reply_start_date d = Some (DateValue s) ->
  put_auto_reply_end_date d = Some (DateValue e) ->
  s > e ->
  (List.length (settings_rows user db) <= 1)%nat ->
  exists payload db',
    AutoReplySettingsView_put user d db
    = (Return (mkResponse HTTP_400_BAD_REQUEST payload), db')
    /\ (payload = JsonError "Start date must be before end date"
        \/ payload = JsonSerializerErrors)
    /\ (forall row, In row (db_settings db) ->
                    settings_user row = user_id user -> db' = db)
    /\ ((forall row, In row (db_settings db) ->
                     settings_user row <> user_id user) ->
        exists row,
          UserSettings_objects_create user db = (Return row, db')
          /\ db' = set_settings (db_settings db ++ [row]) db).
Proof.
  intros Hs He Hgt Hone.
  destruct (settings_rows user db)
    as [|r [|r' l]] eqn:Hf.
  - destruct (get_or_create_missing user db Hf) as (row & Hc & Hg).
    destruct (put_inverted_after_get user d db _ _ s e Hs He Hgt Hg)
      as (payload & Hput & Hpay).
    exists payload. eexists. split; [exact Hput|]. split; [exact Hpay|].
    split.
    + intros row' Hin Hu. exfalso.
      assert (Hin' : In row' (settings_rows user db)).
      { apply filter_In. split; [exact Hin | apply Z.eqb_eq; exact Hu]. }
      rewrite Hf in Hin'. destruct Hin'.
    + intros _. exists row. split; [exact Hc | reflexivity].
  - destruct (put_inverted_after_get user d db _ _ s e Hs He Hgt
                (get_or_create_existing user db r Hf))
      as (payload & Hput & Hpay).
    exists payload, db. split; [exact Hput|]. split; [exact Hpay|].
    split; [reflexivity|].
    intros Hnone. exfalso.
    assert (Hin : In r [r]) by (left; reflexivity).
    rewrite <- Hf in Hin. apply filter_In in Hin. destruct Hin as [Hin Hu].
    apply Z.eqb_eq in Hu. exact (Hnone r Hin Hu).
  - simpl in Hone. lia.
Qed.

Lemma UserSettings_save_stored (row row' : UserSettings) (db : DB) :
  In row (db_settings db) ->
  settings_id row' = settings_id row ->
  In row' (db_settings (snd (UserSettings_save row' db))).
Proof.
  intros Hin Hid. simpl. apply in_map_iff. exists row. split; [|exact Hin].
  rewrite Hid, Z.eqb_refl. reflexivity.
Qed.

(** C7 (as amended). An auto-reply PATCH on a settings row that is disabled
    and has neither start_date nor end_date enables auto-reply, stores as
    start_date the time read for it and as end_date the time of a second
    reading plus 30 days; end_date is therefore at least start_date plus
    30 days, and exactly that when both readings coincide. *)
Theorem auto_reply_patch_enables_with_window
    (now1 now2 : Z) (user : User) (db db0 : DB)
    (row : UserSettings) (created : bool) :
  UserSettings_objects_get_or_create user db = (Return (row, created), db0) ->
  auto_reply_enabled row = false ->
  auto_reply_start_date row = None ->
  auto_reply_end_date row = None ->
  now1 <= now2 ->
  exists row' db',
    AutoReplySettingsView_patch now1 now2 user db
    = (Return (mkResponse HTTP_200_OK (JsonAutoReply row')), db')
    /\ In row' (db_settings db')
    /\ row' = mkUserSettings (settings_id row) (settings_user row) true
                (auto_reply_message row) (Some now1)
                (Some (now2 + timedelta_days 30)) (font row) (dark_mode row)
    /\ (forall a b,
          auto_reply_start_date row' = Some a ->
          auto_reply_end_date row' = Some b ->
          a + timedelta_days 30 <= b
          /\ (now1 = now2 -> b = a + timedelta_days 30)).
Proof.
  intros Hget Hen Hs He Hle.
  pose proof (get_or_create_stored user db db0 row created Hget) as Hin.
  unfold AutoReplySettingsView_patch, try_except, bind. rewrite Hget.
  cbn [fst]. unfold set_auto_reply_enabled at 1 2 3 4.
  rewrite Hen. cbn [negb auto_reply_enabled].
  unfold set_auto_reply_start_date, set_auto_reply_enabled.
  cbn [auto_reply_start_date auto_reply_end_date]. rewrite Hs, He.
  cbn [is_set negb]. unfold set_auto_reply_end_date.
  cbn [settings_id settings_user auto_reply_enabled auto_reply_message
       auto_reply_start_date auto_reply_end_date font dark_mode].
  unfold UserSettings_save at 1. unfold ret.
  eexists. eexists. split; [reflexivity|].
  split.
  - apply (UserSettings_save_stored row _ db0 Hin). reflexivity.
  - split; [reflexivity|].
    cbn [auto_reply_start_date auto_reply_end_date].
    intros a b Ha Hb. injection Ha as <-. injection Hb as <-.
    split; [lia | intros ->; reflexivity].
Qed.

End AutoReply.

Lemma auto_reply_put_counterexample :
  (exists row,
     fst (AutoReplySettingsView_put (collaborators := sample_collaborators)
            alice equal_dates_put sample_db)
     = Return (mkResponse HTTP_200_OK (JsonAutoReply row))
     /\ auto_reply_start_date row = Some 500
     /\ auto_reply_end_date row = Some 500
     /\ In row (db_settings
                  (snd (AutoReplySettingsView_put
                          (collaborators := sample_collaborators)
                          alice equal_dates_put sample_db)))
     /\ ~ In row (db_settings sample_db))
  /\ (exists payload,
        fst (AutoReplySettingsView_put (collaborators := sample_collaborators)
               carol inverted_dates_put sample_db)
        = Return (mkResponse HTTP_400_BAD_REQUEST payload))
  /\ snd (AutoReplySettingsView_put (collaborators := sample_collaborators)
            carol inverted_dates_put sample_db)
     <> sample_db.
Proof.
  split; [|split].
  - eexists. split; [vm_compute; reflexivity|].
    split; [reflexivity|]. split; [reflexivity|].
    split.
    + vm_compute. left. reflexivity.
    + simpl. intros [H|[H|[]]]; discriminate H.
  - eexists. vm_compute. reflexivity.
  - vm_compute. intros H. discriminate H.
Qed.

Lemma auto_reply_put_rejects_inverted_range_witness :
  exists payload db',
    AutoReplySettingsView_put (collaborators := sample_collaborators)
      alice inverted_dates_put sample_db
    = (Return (mkResponse HTTP_400_BAD_REQUEST payload), db')
    /\ db' = sample_db.
Proof.
  destruct (auto_reply_put_rejects_inverted_range
              (collaborators := sample_collaborators)
              alice inverted_dates_put sample_db 600 500 eq_refl eq_refl
              ltac:(lia) ltac:(simpl; lia))
    as (payload & db' & Hput & _ & Hsame & _).
  exists payload, db'. split; [exact Hput|].
  apply (Hsame (mkUserSettings 1 1 false "" None None "Arial" false)).
  - left. reflexivity.
  - reflexivity.
Defined.

Lemma auto_reply_patch_counterexample :
  exists row db',
    AutoReplySettingsView_patch (collaborators := sample_collaborators)
      1000 1001 alice sample_db
    = (Return (mkResponse HTTP_200_OK (JsonAutoReply row)), db')
    /\ In row (db_settings db')
    /\ auto_reply_enabled row = true
    /\ auto_reply_start_date row = Some 1000
    /\ auto_reply_end_date row = Some 2592000001001
    /\ auto_reply_end_date row <> Some (1000 + timedelta_days 30).
Proof.
  eexists. eexists. split; [vm_compute; reflexivity|].
  split; [left; reflexivity|].
  split; [reflexivity|]. split; [reflexivity|]. split; [reflexivity|].
  vm_compute. intros H. discriminate H.
Qed.

Lemma auto_reply_patch_enables_with_window_witness :
  exists row' db',
    AutoReplySettingsView_patch (collaborators := sample_collaborators)
      1000 1000 alice sample_db
    = (Return (mkResponse HTTP_200_OK (JsonAutoReply row')), db')
    /\ In row' (db_settings db')
    /\ auto_reply_enabled row' = true
    /\ auto_reply_start_date row' = Some 1000
    /\ auto_reply_end_date row' = Some (1000 + timedelta_days 30).
Proof.
  destruct (auto_reply_patch_enables_with_window
              (collaborators := sample_collaborators)
              1000 1000 alice sample_db sample_db
              (mkUserSettings 1 1 false "" None None "Arial" false) false
              eq_refl eq_refl eq_refl eq_refl ltac:(lia))
    as (row' & db' & Hpatch & Hin & Hrow & Hwin).
  exists row', db'. split; [exact Hpatch|]. split; [exact Hin|].
  split; [rewrite Hrow; reflexivity|].
  split; [rewrite Hrow; reflexivity|].
  destruct (Hwin 1000 (1000 + timedelta_days 30)) as [_ Heq];
    rewrite Hrow; reflexivity.
Defined.

(** ** Email search *)

Section Search.

Context {collaborators : Collaborators}.

Lemma recipients_join_Some (e : Email) (uid : Z) :
  In (Some uid) (recipients_join e) -> In uid (recipients e).
Proof.
  unfold recipients_join. destruct (recipients e) as [|r rs].
  - intros [H|[]]. discriminate H.
  - intros H. apply in_map_iff in H. destruct H as (x & Hx & Hin).
    injection Hx as <-. exact Hin.
Qed.

Lemma filter_recipient_or_sender_In (user : User) (emails : list Email) (e : Email) :
  In e (filter_recipient_or_sender user emails) ->
  In e emails
  /\ (In (user_id user) (recipients e) \/ sender e = user_id user).
Proof.
  unfold filter_recipient_or_sender. intros H.
  apply in_flat_map in H. destruct H as (x & Hx & H).
  apply in_map_iff in H. destruct H as (r & <- & Hr).
  split; [exact Hx|].
  apply filter_In in Hr. destruct Hr as [Hr Hc].
  apply orb_true_iff in Hc. destruct Hc as [Hc|Hc].
  - left. apply recipients_join_Some.
    destruct r as [z|]; simpl in Hc; [|discriminate].
    apply Z.eqb_eq in Hc. subst z. exact Hr.
  - right. apply Z.eqb_eq. exact Hc.
Qed.

Lemma base_queryset_visible (user : User) (db : DB) (e : Email) :
  In e (exclude_trashed (filter_recipient_or_sender user (db_emails db))) ->
  In e (db_emails db) /\ visible_to user e.
Proof.
  unfold exclude_trashed. intros H. apply filter_In in H.
  destruct H as [H Ht]. apply filter_recipient_or_sender_In in H.
  destruct H as [Hin Hrs]. split; [exact Hin|]. split; [|exact Hrs].
  apply negb_true_iff. exact Ht.
Qed.

Lemma filter_labels_name_In (db : DB) (label : string) (q : list Email) (e : Email) :
  In e (filter_labels_name db label q) -> In e q.
Proof.
  unfold filter_labels_name. intros H.
  apply in_flat_map in H. destruct H as (x & Hx & H).
  apply in_map_iff in H. destruct H as (l & <- & _). exact Hx.
Qed.

Lemma filter_attachments_In (db : DB) (q : list Email) (e : Email) :
  In e (filter_attachments_isnull_false db q) ->
  In e q
  /\ exists a, In a (db_attachments db) /\ attachment_email a = email_id e.
Proof.
  unfold filter_attachments_isnull_false. intros H.
  apply in_flat_map in H. destruct H as (x & Hx & H).
  apply in_map_iff in H. destruct H as (a & <- & Ha).
  split; [exact Hx|].
  apply filter_In in Ha. destruct Ha as [Ha Heq].
  exists a. split; [exact Ha | apply Z.eqb_eq; exact Heq].
Qed.

Lemma distinct_In (q : list Email) (e : Email) : In e (distinct q) -> In e q.
Proof. unfold distinct. apply nodup_In. Qed.

(** Each optional stage of [get_queryset] keeps a part of the rows it is
    given. *)
Lemma status_stage_In (status : option string) (q : list Email) (e : Email) :
  In e (if truthy status then
          if option_string_eqb status (Some "unread")
          then filter (fun e => negb (is_read e)) q
          else if option_string_eqb status (Some "starred")
               then filter (fun e => is_starred e) q
               else q
        else q) ->
  In e q.
Proof.
  destruct (truthy status); [|exact (fun H => H)].
  destruct (option_string_eqb status (Some "unread")).
  - intros H. apply filter_In in H. apply H.
  - destruct (option_string_eqb status (Some "starred")); [|exact (fun H => H)].
    intros H. apply filter_In in H. apply H.
Qed.

Lemma label_stage_In (db : DB) (label : option string) (q : list Email) (e : Email) :
  In e (if truthy label then filter_labels_name db (or_empty label) q else q) ->
  In e q.
Proof.
  destruct (truthy label); [apply filter_labels_name_In | exact (fun H => H)].
Qed.

Lemma attachments_stage_In (db : DB) (v : option string) (q : list Email) (e : Email) :
  In e (if truthy v then distinct (filter_attachments_isnull_false db q) else q) ->
  In e q.
Proof.
  destruct (truthy v); [|exact (fun H => H)].
  intros H. apply distinct_In, filter_attachments_In in H. apply H.
Qed.

Lemma range_stage_inv (start_date end_date : option string)
    (q q' : list Email) (db db' : DB) :
  (if truthy start_date && truthy end_date
   then filter_sent_at_range (or_empty start_date) (or_empty end_date) q
   else ret q) db = (Return q', db') ->
  db' = db /\ forall e, In e q' -> In e q.
Proof.
  destruct (truthy start_date && truthy end_date).
  - unfold filter_sent_at_range.
    destruct (parse_datetime (or_empty start_date)) as [a|];
      [destruct (parse_datetime (or_empty end_date)) as [b|]|];
      try discriminate.
    intros H. injection H as <- <-. split; [reflexivity|].
    intros e H. apply filter_In in H. apply H.
  - intros H. injection H as <- <-. split; [reflexivity | exact (fun e H => H)].
Qed.

(** [get_queryset] reads the store only, and answers rows of the base
    query. *)
Lemma get_queryset_inv
    (user : User) (params : QueryParams) (db db' : DB) (q : list Email) :
  AdvancedEmailSearchView_get_queryset user params db = (Return q, db') ->
  db' = db
  /\ forall e, In e q ->
       In e (exclude_trashed (filter_recipient_or_sender user (db_emails db))).
Proof.
  unfold AdvancedEmailSearchView_get_queryset, bind at 1, get_db.
  unfold bind at 1.
  match goal with
  | |- context [(if ?c then ?a else ?b) db] =>
      destruct ((if c then a else b) db) as [[q0|ex] db0] eqn:Hrange
  end; [|discriminate].
  apply range_stage_inv in Hrange. destruct Hrange as [-> Hq0].
  unfold ret. intros H. injection H as <- <-. split; [reflexivity|].
  intros e H.
  apply attachments_stage_In, label_stage_In, status_stage_In in H.
  apply Hq0. exact H.
Qed.

(** C8. Whatever query parameters are supplied (search text, date range,
    status, label, has_attachments), no trashed email is in the result of
    the search, and every email of the result has the caller among its
    recipients or as its sender. *)
Theorem search_result_visible
    (user : User) (params : QueryParams) (db db' : DB) (q : list Email) :
  AdvancedEmailSearchView_list user params db = (Return q, db') ->
  db' = db
  /\ forall e, In e q ->
       In e (db_emails db)
       /\ is_trashed e = false
       /\ (In (user_id user) (recipients e) \/ sender e = user_id user).
Proof.
  unfold AdvancedEmailSearchView_list, bind at 1.
  destruct (AdvancedEmailSearchView_get_queryset user params db)
    as [[q0|ex] db0] eqn:Hq; [|discriminate].
  apply get_queryset_inv in Hq. destruct Hq as [-> Hq0].
  unfold bind, get_db, ret.
  assert (Hvis : forall e, In e q0 ->
                   In e (db_emails db) /\ is_trashed e = false
                   /\ (In (user_id user) (recipients e)
                       \/ sender e = user_id user)).
  { intros e He. apply Hq0, base_queryset_visible in He.
    destruct He as [Hin [Ht Hrs]]. repeat split; assumption. }
  destruct (truthy (param_search params)); intros H; injection H as <- <-;
    (split; [reflexivity|]).
  - intros e He. apply filter_In in He. apply Hvis. apply He.
  - exact Hvis.
Qed.

(** The search answers a result unless a date bound it has to convert is
    not a date. *)
Lemma search_returns (user : User) (params : QueryParams) (db : DB) :
  truthy (param_start_date params) && truthy (param_end_date params) = false
  \/ (exists a b,
        parse_datetime (or_empty (param_start_date params)) = Some a
        /\ parse_datetime (or_empty (param_end_date params)) = Some b) ->
  exists q, AdvancedEmailSearchView_list user params db = (Return q, db).
Proof.
  intros H.
  unfold AdvancedEmailSearchView_list, AdvancedEmailSearchView_get_queryset,
    bind, get_db, ret.
  destruct (truthy (param_start_date params) && truthy (param_end_date params))
    eqn:Hr.
  - destruct H as [H|(a & b & Ha & Hb)]; [discriminate|].
    unfold filter_sent_at_range. rewrite Ha, Hb. unfold ret.
    destruct (truthy (param_search params)); eexists; reflexivity.
  - destruct (truthy (param_search params)); eexists; reflexivity.
Qed.

(** C9. The attachment filter and its deduplication are applied whenever
    has_attachments is a non-empty string, whatever it spells; an empty
    parameter leaves the query as an absent one does.  When the filter is
    applied, the result has no duplicate and only emails with an
    attachment. *)
Theorem has_attachments_tests_truthiness
    (user : User) (params : QueryParams) (db : DB) :
  (forall s, s <> "" ->
     AdvancedEmailSearchView_get_queryset user
       (set_param_has_attachments (Some s) params) db
     = match AdvancedEmailSearchView_get_queryset user
               (set_param_has_attachments None params) db with
       | (Return q, db') =>
           (Return (distinct (filter_attachments_isnull_false db q)), db')
       | (Raise e, db') => (Raise e, db')
       end)
  /\ (forall s q db', s <> "" ->
        AdvancedEmailSearchView_get_queryset user
          (set_param_has_attachments (Some s) params) db = (Return q, db') ->
        NoDup q
        /\ forall e, In e q ->
             exists a, In a (db_attachments db)
                       /\ attachment_email a = email_id e)
  /\ AdvancedEmailSearchView_get_queryset user
       (set_param_has_attachments (Some "") params) db
     = AdvancedEmailSearchView_get_queryset user
         (set_param_has_attachments None params) db.
Proof.
  assert (Hstep : forall s, s <> "" ->
     AdvancedEmailSearchView_get_queryset user
       (set_param_has_attachments (Some s) params) db
     = match AdvancedEmailSearchView_get_queryset user
               (set_param_has_attachments None params) db with
       | (Return q, db') =>
           (Return (distinct (filter_attachments_isnull_false db q)), db')
       | (Raise e, db') => (Raise e, db')
       end).
  { intros s Hs.
    unfold AdvancedEmailSearchView_get_queryset, bind, get_db, ret.
    cbn [set_param_has_attachments param_start_date param_end_date
         param_status param_label param_has_attachments].
    rewrite (truthy_Some s Hs). cbn [truthy].
    match goal with
    | |- context [(if ?c then ?a else ?b) db] =>
        destruct ((if c then a else b) db) as [[q0|ex] db0]
    end; reflexivity. }
  split; [exact Hstep|]. split; [|reflexivity].
  intros s q db' Hs Hrun. rewrite (Hstep s Hs) in Hrun.
  destruct (AdvancedEmailSearchView_get_queryset user
              (set_param_has_attachments None params) db)
    as [[q0|ex] db0]; [|discriminate].
  injection Hrun as <- <-. split.
  - apply NoDup_nodup.
  - intros e He. apply distinct_In, filter_attachments_In in He.
    apply He.
Qed.

End Search.

Lemma search_result_visible_witness :
  AdvancedEmailSearchView_list (collaborators := sample_collaborators)
    alice unread_with_attachments sample_db
  = (Return [first_email], sample_db)
  /\ forall e, In e [first_email] ->
       In e (db_emails sample_db)
       /\ is_trashed e = false
       /\ (In (user_id alice) (recipients e) \/ sender e = user_id alice).
Proof.
  assert (Hrun : AdvancedEmailSearchView_list
                   (collaborators := sample_collaborators)
                   alice unread_with_attachments sample_db
                 = (Return [first_email], sample_db))
    by (vm_compute; reflexivity).
  split; [exact Hrun|].
  exact (proj2 (search_result_visible (collaborators := sample_collaborators)
                  alice unread_with_attachments sample_db sample_db
                  [first_email] Hrun)).
Defined.

Lemma has_attachments_tests_truthiness_witness :
  AdvancedEmailSearchView_get_queryset (collaborators := sample_collaborators)
    alice no_params sample_db
  = (Return [first_email; second_email; second_email], sample_db)
  /\ AdvancedEmailSearchView_get_queryset (collaborators := sample_collaborators)
       alice (set_param_has_attachments (Some "false") no_params) sample_db
     = (Return [first_email], sample_db)
  /\ AdvancedEmailSearchView_get_queryset (collaborators := sample_collaborators)
       alice (set_param_has_attachments (Some "0") no_params) sample_db
     = (Return [first_email], sample_db)
  /\ AdvancedEmailSearchView_get_queryset (collaborators := sample_collaborators)
       alice (set_param_has_attachments (Some "") no_params) sample_db
     = (Return [first_email; second_email; second_email], sample_db).
Proof.
  destruct (has_attachments_tests_truthiness
              (collaborators := sample_collaborators) alice no_params sample_db)
    as (Hon & _ & Hoff).
  assert (Hbase : AdvancedEmailSearchView_get_queryset
                    (collaborators := sample_collaborators)
                    alice (set_param_has_attachments None no_params) sample_db
                  = (Return [first_email; second_email; second_email],
                     sample_db))
    by (vm_compute; reflexivity).
  split; [exact Hbase|]. split; [|split].
  - rewrite (Hon "false" ltac:(discriminate)), Hbase. vm_compute. reflexivity.
  - rewrite (Hon "0" ltac:(discriminate)), Hbase. vm_compute. reflexivity.
  - rewrite Hoff. exact Hbase.
Defined.

(** ** Two-factor setup *)

Lemma user_profile_found (user : User) (db : DB) (p : UserProfile) :
  profile_rows user db = [p] -> user_profile user db = (Return p, db).
Proof.
  intros Hp. unfold user_profile, try_except, objects_get.
  unfold profile_rows in Hp. rewrite Hp. reflexivity.
Qed.

(** Without a profile row, [request.user.profile] raises before the code
    is looked at. *)
Lemma two_factor_put_without_profile
    (user : User) (code : option string) (db : DB) :
  profile_rows user db = [] ->
  TwoFactorSetupView_put user code db = (Raise RelatedObjectDoesNotExist, db).
Proof.
  intros Hp. unfold TwoFactorSetupView_put, bind, user_profile, try_except,
    objects_get.
  unfold profile_rows in Hp. rewrite Hp. reflexivity.
Qed.

(** C10. A two-factor PUT whose body has no verification_code applies
    [verify_two_factor_code] to [None], whose [len] raises a [TypeError]
    that no handler catches; the 400 answer is reached only by a code that
    is present and is not six digits.  The caller is assumed to have a
    profile, as [request.user.profile] requires. *)
Theorem two_factor_put_absent_code
    (user : User) (db : DB) (p : UserProfile) :
  profile_rows user db = [p] ->
  verify_two_factor_code None db = (Raise TypeError, db)
  /\ TwoFactorSetupView_put user None db = (Raise TypeError, db)
  /\ (forall c,
        TwoFactorSetupView_put user (Some c) db
        = if (len c =? 6) && isdigit c
          then (Return (mkResponse HTTP_200_OK
                          (JsonMessage "Two-factor authentication enabled")),
                snd (UserProfile_save (set_two_factor_enabled true p) db))
          else (Return (mkResponse HTTP_400_BAD_REQUEST
                          (JsonError "Invalid verification code")),
                db))
  /\ (forall code resp db',
        TwoFactorSetupView_put user code db = (Return resp, db') ->
        status_code resp = HTTP_400_BAD_REQUEST ->
        exists c, code = Some c /\ (len c <> 6 \/ isdigit c = false)).
Proof.
  intros Hp.
  assert (Hsome : forall c,
        TwoFactorSetupView_put user (Some c) db
        = if (len c =? 6) && isdigit c
          then (Return (mkResponse HTTP_200_OK
                          (JsonMessage "Two-factor authentication enabled")),
                snd (UserProfile_save (set_two_factor_enabled true p) db))
          else (Return (mkResponse HTTP_400_BAD_REQUEST
                          (JsonError "Invalid verification code")),
                db)).
  { intros c. unfold TwoFactorSetupView_put, bind at 1.
    rewrite (user_profile_found user db p Hp).
    unfold bind, verify_two_factor_code, ret.
    destruct ((len c =? 6) && isdigit c); reflexivity. }
  split; [reflexivity|]. split; [|split].
  - unfold TwoFactorSetupView_put, bind at 1.
    rewrite (user_profile_found user db p Hp). reflexivity.
  - exact Hsome.
  - intros code resp db' Hrun Hst. destruct code as [c|].
    + exists c. split; [reflexivity|].
      rewrite Hsome in Hrun.
      destruct ((len c =? 6) && isdigit c) eqn:Hv.
      * injection Hrun as <- <-. discriminate Hst.
      * apply andb_false_iff in Hv. destruct Hv as [Hv|Hv].
        -- left. apply Z.eqb_neq. exact Hv.
        -- right. exact Hv.
    + exfalso. unfold TwoFactorSetupView_put, bind at 1 in Hrun.
      rewrite (user_profile_found user db p Hp) in Hrun.
      discriminate Hrun.
Qed.

Lemma two_factor_put_absent_code_witness :
  TwoFactorSetupView_put alice None sample_db = (Raise TypeError, sample_db)
  /\ TwoFactorSetupView_put alice (Some "12345") sample_db
     = (Return (mkResponse HTTP_400_BAD_REQUEST
                           (JsonError "Invalid verification code")),
        sample_db)
  /\ TwoFactorSetupView_put alice (Some "12a456") sample_db
     = (Return (mkResponse HTTP_400_BAD_REQUEST
                           (JsonError "Invalid verification code")),
        sample_db)
  /\ fst (TwoFactorSetupView_put alice (Some "123456") sample_db)
     = Return (mkResponse HTTP_200_OK
                          (JsonMessage "Two-factor authentication enabled")).
Proof.
  destruct (two_factor_put_absent_code alice sample_db
              (mkUserProfile 1 1 "" None None false) eq_refl)
    as (_ & Hnone & Hsome & _).
  split; [exact Hnone|]. split; [|split].
  - rewrite Hsome. reflexivity.
  - rewrite Hsome. reflexivity.
  - rewrite Hsome. reflexivity.
Defined.

(** * Further properties of the views *)

(** ** Sessions: validation, expiry and the reach of a logout *)

Lemma filter_filter_implies {A} (p p' : A -> bool) (l : list A) :
  (forall x, p' x = true -> p x = true) ->
  filter p' (filter p l) = filter p' l.
Proof.
  intros Himp. induction l as [|a l IH]; simpl; [reflexivity|].
  destruct (p a) eqn:Hp; simpl.
  - destruct (p' a); [f_equal|]; exact IH.
  - destruct (p' a) eqn:Hp'.
    + apply Himp in Hp'. rewrite Hp in Hp'. discriminate.
    + exact IH.
Qed.

Lemma live_sessions_narrow (tok : option string) (now now' : Z) (db : DB) :
  now <= now' ->
  live_sessions tok now' db
  = filter (session_lookup tok now') (live_sessions tok now db).
Proof.
  intros Hle. unfold live_sessions. symmetry. apply filter_filter_implies.
  intros x. apply session_lookup_earlier. exact Hle.
Qed.

Lemma NoDup_map_eq {A B} (f : A -> B) (l : list A) (a b : A) :
  NoDup (map f l) -> In a l -> In b l -> f a = f b -> a = b.
Proof.
  induction l as [|x l IH]; simpl; intros Hnd Ha Hb Heq; [destruct Ha|].
  inversion Hnd as [|y m Hnotin Hnd']; subst.
  destruct Ha as [->|Ha], Hb as [->|Hb].
  - reflexivity.
  - exfalso. apply Hnotin. rewrite Heq. apply in_map. exact Hb.
  - exfalso. apply Hnotin. rewrite <- Heq. apply in_map. exact Ha.
  - apply IH; assumption.
Qed.

(** X1. For a non-empty token, validate-token answers 200 with a user
    exactly when the authenticator returns that user for the same token as
    Authorization header, and 401 exactly when the authenticator fails with
    [AuthenticationFailed]; validate-token never modifies the store. *)
Theorem validate_token_agrees_with_authenticator
    (now : Z) (t : string) (db : DB) :
  t <> "" ->
  snd (ValidateTokenView_post now (Some t) db) = db
  /\ (forall u,
        fst (SessionTokenAuthentication_authenticate now (Some t) db)
        = Return (Some u)
        <-> fst (ValidateTokenView_post now (Some t) db)
            = Return (mkResponse HTTP_200_OK
                                 (JsonUserMessage u "Token is valid")))
  /\ (fst (SessionTokenAuthentication_authenticate now (Some t) db)
      = Raise (AuthenticationFailed "Invalid or expired token")
      <-> fst (ValidateTokenView_post now (Some t) db)
          = Return (mkResponse HTTP_401_UNAUTHORIZED
                               (JsonMessage "Invalid or expired token"))).
Proof.
  intros Ht.
  unfold SessionTokenAuthentication_authenticate, ValidateTokenView_post.
  rewrite (truthy_Some t Ht). cbn [negb].
  unfold try_except, bind, objects_get.
  destruct (filter (session_lookup (Some t) now) (db_users db))
    as [|r [|r' l]]; cbn [fst snd ret raise].
  - split; [reflexivity|]. split.
    + intros u. split; intros H; discriminate H.
    + split; intros _; reflexivity.
  - split; [reflexivity|]. split.
    + intros u. split; intros H; injection H as <-; reflexivity.
    + split; intros H; discriminate H.
  - split; [reflexivity|]. split.
    + intros u. split; intros H; discriminate H.
    + split; intros H; discriminate H.
Qed.

Lemma validate_token_agrees_with_authenticator_witness :
  fst (SessionTokenAuthentication_authenticate 100 (Some "tok-alice") sample_db)
  = Return (Some alice)
  /\ fst (ValidateTokenView_post 100 (Some "tok-alice") sample_db)
     = Return (mkResponse HTTP_200_OK (JsonUserMessage alice "Token is valid")).
Proof.
  destruct (validate_token_agrees_with_authenticator 100 "tok-alice" sample_db
              ltac:(discriminate)) as (_ & Hiff & _).
  split; [reflexivity|]. apply Hiff. reflexivity.
Defined.

(** X2. A token that resolves to a user at some time keeps resolving to
    that user at every later time strictly before the stored expiry, and is
    answered 401 from the expiry instant on (the comparison is strict). *)
Theorem validate_token_expiry_boundary
    (now : Z) (t : string) (u : User) (e : Z) (db : DB) :
  live_sessions (Some t) now db = [u] ->
  session_expiry u = Some e ->
  (forall now', now <= now' -> now' < e ->
     ValidateTokenView_post now' (Some t) db
     = (Return (mkResponse HTTP_200_OK (JsonUserMessage u "Token is valid")),
        db))
  /\ (forall now', e <= now' ->
        ValidateTokenView_post now' (Some t) db
        = (Return (mkResponse HTTP_401_UNAUTHORIZED
                              (JsonMessage "Invalid or expired token")),
           db)).
Proof.
  intros Hlive He.
  assert (Hu : In u (live_sessions (Some t) now db))
    by (rewrite Hlive; left; reflexivity).
  apply live_sessions_In in Hu. destruct Hu as (_ & Htok & e' & He' & Hlt).
  rewrite He in He'. injection He' as <-.
  split; intros now' H1.
  - intros H2.
    pose proof (live_sessions_narrow (Some t) now now' db H1) as Hn.
    rewrite Hlive in Hn. simpl in Hn.
    assert (Hl : session_lookup (Some t) now' u = true).
    { apply session_lookup_true. split; [exact Htok|].
      exists e. split; [exact He | exact H2]. }
    rewrite Hl in Hn.
    unfold ValidateTokenView_post, try_except, bind, objects_get.
    unfold live_sessions in Hn. rewrite Hn. reflexivity.
  - assert (Hle : now <= now') by lia.
    pose proof (live_sessions_narrow (Some t) now now' db Hle) as Hn.
    rewrite Hlive in Hn. simpl in Hn.
    assert (Hl : session_lookup (Some t) now' u = false).
    { destruct (session_lookup (Some t) now' u) eqn:E; [|reflexivity].
      apply session_lookup_true in E. destruct E as (_ & e' & He' & Hlt').
      rewrite He in He'. injection He' as <-. lia. }
    rewrite Hl in Hn.
    unfold ValidateTokenView_post, try_except, bind, objects_get.
    unfold live_sessions in Hn. rewrite Hn. reflexivity.
Qed.

Lemma validate_token_expiry_boundary_witness :
  ValidateTokenView_post 999 (Some "tok-alice") sample_db
  = (Return (mkResponse HTTP_200_OK (JsonUserMessage alice "Token is valid")),
     sample_db)
  /\ ValidateTokenView_post 1000 (Some "tok-alice") sample_db
     = (Return (mkResponse HTTP_401_UNAUTHORIZED
                           (JsonMessage "Invalid or expired token")),
        sample_db).
Proof.
  destruct (validate_token_expiry_boundary 100 "tok-alice" alice 1000 sample_db
              eq_refl eq_refl) as (Hbefore & Hafter).
  split; [apply Hbefore; lia | apply Hafter; lia].
Defined.

Lemma filter_map_same {A} (p : A -> bool) (g : A -> A) (l : list A) :
  (forall x, In x l -> g x = x \/ (p x = false /\ p (g x) = false)) ->
  filter p (map g l) = filter p l.
Proof.
  induction l as [|a l IH]; intros H; simpl; [reflexivity|].
  rewrite IH by (intros x Hx; apply H; right; exact Hx).
  destruct (H a (or_introl eq_refl)) as [->|[H1 H2]].
  - reflexivity.
  - rewrite H1, H2. reflexivity.
Qed.

Lemma same_account_refl (l : list User) : Forall2 same_account l l.
Proof.
  induction l as [|a l IH]; constructor; [|exact IH].
  repeat split.
Qed.

(** The rows of the user table after the session of [u] is cleared. *)
Lemma cleared_rows_same_account (u : User) (l : list User) :
  NoDup (map user_id l) -> In u l ->
  Forall2 same_account l
    (map (fun r => if user_id r =? user_id u then clear_session u else r) l).
Proof.
  intros Hnd Hu.
  assert (H : forall x, In x l ->
            same_account x
              (if user_id x =? user_id u then clear_session u else x)).
  { intros x Hx. destruct (user_id x =? user_id u) eqn:E.
    - apply Z.eqb_eq in E.
      rewrite (NoDup_map_eq user_id l x u Hnd Hx Hu E). repeat split.
    - repeat split. }
  clear Hnd Hu. induction l as [|a l IH]; simpl; constructor.
  - apply H. left. reflexivity.
  - apply IH. intros x Hx. apply H. right. exact Hx.
Qed.

Lemma cleared_rows_keys (u : User) (l : list User) :
  map user_id
    (map (fun r => if user_id r =? user_id u then clear_session u else r) l)
  = map user_id l.
Proof.
  rewrite map_map. apply map_ext. intros r.
  destruct (user_id r =? user_id u) eqn:E; [|reflexivity].
  apply Z.eqb_eq in E. symmetry. exact E.
Qed.

(** X3. A logout that clears the session of token T leaves every other
    token as it was: validate-token answers for any other token what it
    answered before the logout.  User primary keys are assumed unique. *)
Theorem logout_keeps_other_sessions
    (now : Z) (T : string) (body hdr : option string) (u : User) (db : DB) :
  user_keys_unique db ->
  py_or body hdr = Some T ->
  T <> "" ->
  live_sessions (Some T) now db = [u] ->
  forall T' now',
    T' <> T ->
    fst (ValidateTokenView_post now' (Some T')
           (snd (LogoutView_post now body hdr db)))
    = fst (ValidateTokenView_post now' (Some T') db).
Proof.
  intros Hkeys Hpy HT Hlive T' now' Hne.
  rewrite (logout_live_token now body hdr u db).
  2: { rewrite Hpy. apply truthy_Some. exact HT. }
  2: { rewrite Hpy. exact Hlive. }
  cbn [snd].
  assert (Hu : In u (live_sessions (Some T) now db))
    by (rewrite Hlive; left; reflexivity).
  apply live_sessions_In in Hu. destruct Hu as (Hu & Htok & _).
  unfold ValidateTokenView_post, try_except, bind, objects_get.
  cbn [db_users set_users].
  rewrite (filter_map_same (session_lookup (Some T') now')).
  { destruct (filter (session_lookup (Some T') now') (db_users db))
      as [|r [|r' l]]; reflexivity. }
  intros x Hx. destruct (user_id x =? user_id u) eqn:E; [|left; reflexivity].
  right. apply Z.eqb_eq in E.
  rewrite (NoDup_map_eq user_id _ x u Hkeys Hx Hu E).
  split; [|reflexivity].
  unfold session_lookup, session_token_exact. rewrite Htok. simpl.
  destruct (String.eqb_spec T T'); [|reflexivity].
  exfalso. apply Hne. symmetry. assumption.
Qed.

Lemma logout_keeps_other_sessions_witness :
  fst (ValidateTokenView_post 10 (Some "tok-bob")
         (snd (LogoutView_post 10 (Some "tok-alice") None sample_db)))
  = Return (mkResponse HTTP_200_OK (JsonUserMessage bob "Token is valid")).
Proof.
  rewrite (logout_keeps_other_sessions 10 "tok-alice" (Some "tok-alice") None
             alice sample_db).
  - reflexivity.
  - unfold user_keys_unique. simpl.
    repeat constructor; simpl; intuition discriminate.
  - reflexivity.
  - discriminate.
  - reflexivity.
  - discriminate.
Defined.

(** X4. Whatever the request, a logout keeps every account: the user table
    has the same rows in the same order, each differing from before at most
    in its session columns, and no other table changes.  User primary keys
    are assumed unique. *)
Theorem logout_preserves_accounts
    (now : Z) (body hdr : option string) (db : DB) :
  user_keys_unique db ->
  let db1 := snd (LogoutView_post now body hdr db) in
  Forall2 same_account (db_users db) (db_users db1)
  /\ user_keys_unique db1
  /\ db_profiles db1 = db_profiles db
  /\ db_settings db1 = db_settings db
  /\ db_labels db1 = db_labels db
  /\ db_emails db1 = db_emails db
  /\ db_attachments db1 = db_attachments db.
Proof.
  intros Hkeys db1.
  assert (Hsame : db1 = db ->
            Forall2 same_account (db_users db) (db_users db1)
            /\ user_keys_unique db1
            /\ db_profiles db1 = db_profiles db
            /\ db_settings db1 = db_settings db
            /\ db_labels db1 = db_labels db
            /\ db_emails db1 = db_emails db
            /\ db_attachments db1 = db_attachments db).
  { intros ->. split; [apply same_account_refl|]. repeat split. exact Hkeys. }
  subst db1.
  destruct (truthy (py_or body hdr)) eqn:Ht.
  - destruct (live_sessions (py_or body hdr) now db) as [|u [|v l]] eqn:Hl.
    + apply Hsame. rewrite logout_unknown_token by assumption. reflexivity.
    + rewrite (logout_live_token now body hdr u db Ht Hl). cbn [snd].
      assert (Hu : In u (db_users db)).
      { assert (Hin : In u (live_sessions (py_or body hdr) now db))
          by (rewrite Hl; left; reflexivity).
        unfold live_sessions in Hin. apply filter_In in Hin. apply Hin. }
      split; [apply cleared_rows_same_account; assumption|].
      split; [|repeat split].
      unfold user_keys_unique. cbn [db_users set_users].
      rewrite cleared_rows_keys. exact Hkeys.
    + apply Hsame.
      rewrite (logout_ambiguous_token now body hdr u v l db Ht Hl).
      reflexivity.
  - apply Hsame. rewrite logout_without_token by assumption. reflexivity.
Qed.

Lemma sample_db_user_keys_unique : user_keys_unique sample_db.
Proof.
  unfold user_keys_unique. simpl.
  repeat constructor; simpl; intuition discriminate.
Qed.

Lemma logout_preserves_accounts_witness :
  Forall2 same_account (db_users sample_db)
    (db_users (snd (LogoutView_post 100 (Some "tok-alice") None sample_db)))
  /\ db_settings (snd (LogoutView_post 100 (Some "tok-alice") None sample_db))
     = db_settings sample_db.
Proof.
  destruct (logout_preserves_accounts 100 (Some "tok-alice") None sample_db
              sample_db_user_keys_unique) as (H1 & _ & _ & H2 & _).
  split; [exact H1 | exact H2].
Defined.

(** ** Registration: duplicates, success and invariants *)

Section RegistrationMore.

Context {collaborators : Collaborators}.

Lemma len_positive_nonempty (p : string) : 10 <= len p -> p <> "".
Proof. intros H ->. unfold len in H. simpl in H. lia. Qed.

Lemma UserProfile_objects_create_fresh (user : User) (db : DB) :
  existsb (fun r => profile_user r =? user_id user) (db_profiles db) = false ->
  exists prof,
    UserProfile_objects_create user db
    = (Return prof, set_profiles (db_profiles db ++ [prof]) db)
    /\ profile_user prof = user_id user.
Proof.
  intros H. unfold UserProfile_objects_create. rewrite H.
  eexists. split; reflexivity.
Qed.

Lemma UserSettings_objects_create_fresh (user : User) (db : DB) :
  existsb (fun r => settings_user r =? user_id user) (db_settings db) = false ->
  exists sett,
    UserSettings_objects_create user db
    = (Return sett, set_settings (db_settings db ++ [sett]) db)
    /\ settings_user sett = user_id user.
Proof.
  intros H. unfold UserSettings_objects_create. rewrite H.
  eexists. split; reflexivity.
Qed.

Lemma register_created_forward (d : RegisterData) (p : string) (db : DB) :
  UserRegisterSerializer_is_valid d db = true ->
  reg_phone_number d = Some p ->
  10 <= len p <= 15 ->
  existsb (fun u => (phone_number u =? p)%string) (db_users db) = false ->
  existsb (fun r => profile_user r =? next_id (map user_id (db_users db)))
          (db_profiles db) = false ->
  existsb (fun r => settings_user r =? next_id (map user_id (db_users db)))
          (db_settings db) = false ->
  let uid := next_id (map user_id (db_users db)) in
  let user :=
    mkUser uid p (make_password (or_empty (reg_password d)))
           (or_empty (reg_first_name d)) (or_empty (reg_last_name d))
           (or_empty (reg_email d)) None None in
  exists prof sett i1 i2 i3,
    RegisterView_post d db
    = (Return (mkResponse HTTP_201_CREATED (JsonUser user)),
       mkDB (db_users db ++ [user]) (db_profiles db ++ [prof])
            (db_settings db ++ [sett])
            (db_labels db ++ [mkLabel i1 uid "Important" "#FF0000";
                              mkLabel i2 uid "Personal" "#00FF00";
                              mkLabel i3 uid "Work" "#0000FF"])
            (db_emails db) (db_attachments db))
    /\ profile_user prof = uid /\ settings_user sett = uid.
Proof.
  intros Hvalid Hphone Hlen Hreg Hprof Hsett uid user.
  unfold RegisterView_post, bind at 1, get_db. rewrite Hvalid.
  unfold try_except at 1, bind at 1, try_except at 1, bind at 1,
    validate_phone_number.
  rewrite Hphone.
  assert (Hc : negb (truthy (Some p)) || (len (or_empty (Some p)) <? 10)
               || (len (or_empty (Some p)) >? 15) = false).
  { rewrite (truthy_Some p (len_positive_nonempty p (proj1 Hlen))).
    cbn [or_empty negb orb].
    apply orb_false_iff.
    split; [apply Z.ltb_ge | rewrite Z.gtb_ltb; apply Z.ltb_ge]; lia. }
  rewrite Hc.
  cbv beta iota delta [ret raise].
  unfold bind at 1, phone_number_registered. rewrite Hreg.
  unfold bind at 1, UserRegisterSerializer_save. unfold bind at 1.
  match goal with
  | |- context [UserProfile_objects_create ?u ?x] =>
      destruct (UserProfile_objects_create_fresh u x Hprof)
        as (prof & Eprof & Hpu);
      rewrite Eprof
  end.
  unfold bind at 1.
  match goal with
  | |- context [UserSettings_objects_create ?u ?x] =>
      destruct (UserSettings_objects_create_fresh u x Hsett)
        as (sett & Esett & Hsu);
      rewrite Esett
  end.
  unfold bind at 1.
  match goal with
  | |- context [for_each default_labels
                  (fun l => Label_objects_create ?u _ _) ?x] =>
      destruct (create_default_labels u x) as (i1 & i2 & i3 & Hl);
      rewrite Hl
  end.
  unfold bind, django_login, ret.
  exists prof, sett, i1, i2, i3.
  rewrite Hphone. cbn [or_empty]. cbn in Hpu, Hsu.
  split; [reflexivity|]. split; assumption.
Qed.

Lemma register_rejected (d : RegisterData) (db : DB) :
  UserRegisterSerializer_is_valid d db = false
  \/ phone_rejected (reg_phone_number d) = true
  \/ existsb (fun u => match reg_phone_number d with
                       | Some p => (phone_number u =? p)%string
                       | None => false
                       end) (db_users db) = true ->
  exists payload,
    RegisterView_post d db
    = (Return (mkResponse HTTP_400_BAD_REQUEST payload), db)
    /\ (UserRegisterSerializer_is_valid d db = true ->
        phone_rejected (reg_phone_number d) = false ->
        payload = JsonError "Phone number already registered.").
Proof.
  intros H. unfold RegisterView_post, bind at 1, get_db.
  destruct (UserRegisterSerializer_is_valid d db).
  2: { eexists. split; [reflexivity | discriminate]. }
  unfold try_except at 1, bind at 1, try_except at 1, bind at 1,
    validate_phone_number.
  fold (phone_rejected (reg_phone_number d)).
  destruct (phone_rejected (reg_phone_number d)).
  { eexists. split; [reflexivity | discriminate]. }
  destruct H as [H|[H|H]]; try discriminate H.
  cbv beta iota delta [ret raise].
  unfold bind at 1, phone_number_registered. rewrite H.
  eexists. split; reflexivity.
Qed.

(** X5. A registration for a phone number that a stored user already has
    is answered 400 and changes nothing; when the serializer and the
    length test accept the request the message is "Phone number already
    registered." *)
Theorem register_rejects_registered_phone
    (d : RegisterData) (p : string) (u : User) (db : DB) :
  reg_phone_number d = Some p ->
  In u (db_users db) ->
  phone_number u = p ->
  exists payload,
    RegisterView_post d db
    = (Return (mkResponse HTTP_400_BAD_REQUEST payload), db)
    /\ (UserRegisterSerializer_is_valid d db = true ->
        10 <= len p <= 15 ->
        payload = JsonError "Phone number already registered.").
Proof.
  intros Hp Hu Hphone.
  destruct (register_rejected d db) as (payload & Hrun & Hmsg).
  { right. right. rewrite Hp. apply existsb_exists. exists u.
    split; [exact Hu | apply String.eqb_eq; exact Hphone]. }
  exists payload. split; [exact Hrun|].
  intros Hvalid Hlen. apply Hmsg; [exact Hvalid|].
  unfold phone_rejected. rewrite Hp.
  rewrite (truthy_Some p (len_positive_nonempty p (proj1 Hlen))).
  cbn [or_empty negb orb]. apply orb_false_iff.
  split; [apply Z.ltb_ge | rewrite Z.gtb_ltb; apply Z.ltb_ge]; lia.
Qed.

Lemma phone_accepted_inv (d : RegisterData) (db : DB) :
  UserRegisterSerializer_is_valid d db = true ->
  phone_rejected (reg_phone_number d) = false ->
  exists p, reg_phone_number d = Some p /\ 10 <= len p <= 15.
Proof.
  intros _ H. unfold phone_rejected in H.
  apply orb_false_iff in H. destruct H as [H H3].
  apply orb_false_iff in H. destruct H as [H1 H2].
  destruct (reg_phone_number d) as [p|]; [|discriminate H1].
  exists p. split; [reflexivity|]. cbn [or_empty] in H2, H3.
  apply Z.ltb_ge in H2. rewrite Z.gtb_ltb in H3. apply Z.ltb_ge in H3. lia.
Qed.

Lemma fresh_key_no_profile (db : DB) :
  profiles_have_owner db ->
  existsb (fun r => profile_user r =? next_id (map user_id (db_users db)))
          (db_profiles db) = false.
Proof.
  intros Hfk. destruct (existsb _ (db_profiles db)) eqn:E; [|reflexivity].
  apply existsb_exists in E. destruct E as (r & Hin & Heq).
  apply Z.eqb_eq in Heq. destruct (Hfk r Hin) as (u & Hu & Hid).
  exfalso. apply (next_id_fresh (map user_id (db_users db))).
  rewrite <- Heq, <- Hid. apply in_map. exact Hu.
Qed.

Lemma fresh_key_no_settings (db : DB) :
  settings_have_owner db ->
  existsb (fun r => settings_user r =? next_id (map user_id (db_users db)))
          (db_settings db) = false.
Proof.
  intros Hfk. destruct (existsb _ (db_settings db)) eqn:E; [|reflexivity].
  apply existsb_exists in E. destruct E as (r & Hin & Heq).
  apply Z.eqb_eq in Heq. destruct (Hfk r Hin) as (u & Hu & Hid).
  exfalso. apply (next_id_fresh (map user_id (db_users db))).
  rewrite <- Heq, <- Hid. apply in_map. exact Hu.
Qed.

Lemma register_created_conditions
    (d : RegisterData) (db db1 : DB) (resp : Response) :
  RegisterView_post d db = (Return resp, db1) ->
  status_code resp = HTTP_201_CREATED ->
  exists p,
    reg_phone_number d = Some p /\ 10 <= len p <= 15
    /\ UserRegisterSerializer_is_valid d db = true
    /\ existsb (fun u => (phone_number u =? p)%string) (db_users db) = false.
Proof.
  intros Hrun Hst.
  destruct (UserRegisterSerializer_is_valid d db) eqn:Hv.
  2: { destruct (register_rejected d db (or_introl Hv)) as (pl & H & _).
       rewrite H in Hrun. injection Hrun as <- _. discriminate Hst. }
  destruct (phone_rejected (reg_phone_number d)) eqn:Hr.
  { destruct (register_rejected d db (or_intror (or_introl Hr)))
      as (pl & H & _).
    rewrite H in Hrun. injection Hrun as <- _. discriminate Hst. }
  destruct (phone_accepted_inv d db Hv Hr) as (p & Hp & Hlen).
  exists p. split; [exact Hp|]. split; [exact Hlen|]. split; [reflexivity|].
  destruct (existsb (fun u => (phone_number u =? p)%string) (db_users db))
    eqn:He; [|reflexivity].
  destruct (register_rejected d db) as (pl & H & _).
  { right. right. rewrite Hp. exact He. }
  rewrite H in Hrun. injection Hrun as <- _. discriminate Hst.
Qed.

(** X8. On a consistent store (unique user keys; profile, settings and
    label rows that belong to stored users), whatever a registration
    answers, the store stays consistent, keeps every user row, and keeps
    its emails and attachments. *)
Theorem register_preserves_consistency
    (d : RegisterData) (db db' : DB) (out : Outcome Response) :
  store_consistent db ->
  RegisterView_post d db = (out, db') ->
  store_consistent db'
  /\ (forall u, In u (db_users db) -> In u (db_users db'))
  /\ db_emails db' = db_emails db
  /\ db_attachments db' = db_attachments db.
Proof.
  intros (Hkeys & Hpo & Hso & Hlo) Hrun.
  assert (Hrej : (exists payload,
                    RegisterView_post d db
                    = (Return (mkResponse HTTP_400_BAD_REQUEST payload), db)) ->
                 store_consistent db'
                 /\ (forall u, In u (db_users db) -> In u (db_users db'))
                 /\ db_emails db' = db_emails db
                 /\ db_attachments db' = db_attachments db).
  { intros (payload & H). rewrite H in Hrun. injection Hrun as <- <-.
    split; [repeat split; assumption|].
    repeat split. exact (fun u H => H). }
  destruct (UserRegisterSerializer_is_valid d db) eqn:Hv.
  2: { apply Hrej. destruct (register_rejected d db (or_introl Hv))
         as (pl & H & _). exists pl. exact H. }
  destruct (phone_rejected (reg_phone_number d)) eqn:Hr.
  { apply Hrej.
    destruct (register_rejected d db (or_intror (or_introl Hr)))
      as (pl & H & _). exists pl. exact H. }
  destruct (phone_accepted_inv d db Hv Hr) as (p & Hp & Hlen).
  destruct (existsb (fun u => (phone_number u =? p)%string) (db_users db))
    eqn:He.
  { apply Hrej. destruct (register_rejected d db) as (pl & H & _).
    - right. right. rewrite Hp. exact He.
    - exists pl. exact H. }
  clear Hrej.
  destruct (register_created_forward d p db Hv Hp Hlen He
              (fresh_key_no_profile db Hpo) (fresh_key_no_settings db Hso))
    as (prof & sett & i1 & i2 & i3 & Hrun' & Hpu & Hsu).
  rewrite Hrun' in Hrun. injection Hrun as <- <-.
  cbv zeta in Hpu, Hsu.
  set (uid := next_id (map user_id (db_users db))) in *.
  set (user := mkUser uid p _ _ _ _ None None).
  assert (Hin_new : forall (l : list User), In user (l ++ [user]))
    by (intros l; apply in_or_app; right; left; reflexivity).
  split; [|split; [|split]].
  - unfold store_consistent, user_keys_unique, profiles_have_owner,
      settings_have_owner, labels_have_owner.
    cbn [db_users db_profiles db_settings db_labels].
    split; [|split; [|split]].
    + rewrite map_app. cbn [map user_id].
      apply NoDup_app; [exact Hkeys | repeat constructor; intros [] |].
      intros x Hx [<-|[]]. exact (next_id_fresh _ Hx).
    + intros r Hr'. apply in_app_or in Hr'. destruct Hr' as [Hr'|[<-|[]]].
      * destruct (Hpo r Hr') as (u & Hu & Hid). exists u.
        split; [apply in_or_app; left; exact Hu | exact Hid].
      * exists user. split; [apply Hin_new | symmetry; exact Hpu].
    + intros r Hr'. apply in_app_or in Hr'. destruct Hr' as [Hr'|[<-|[]]].
      * destruct (Hso r Hr') as (u & Hu & Hid). exists u.
        split; [apply in_or_app; left; exact Hu | exact Hid].
      * exists user. split; [apply Hin_new | symmetry; exact Hsu].
    + intros r Hr'. apply in_app_or in Hr'. destruct Hr' as [Hr'|Hr'].
      * destruct (Hlo r Hr') as (u & Hu & Hid). exists u.
        split; [apply in_or_app; left; exact Hu | exact Hid].
      * exists user. split; [apply Hin_new|].
        simpl in Hr'. destruct Hr' as [<-|[<-|[<-|[]]]]; reflexivity.
  - intros u Hu. cbn [db_users]. apply in_or_app. left. exact Hu.
  - reflexivity.
  - reflexivity.
Qed.

End RegistrationMore.

Lemma register_rejects_registered_phone_witness :
  RegisterView_post (collaborators := sample_collaborators)
    (mkRegisterData (Some "0123456789") (Some "x") None None None) sample_db
  = (Return (mkResponse HTTP_400_BAD_REQUEST
               (JsonError "Phone number already registered.")),
     sample_db).
Proof.
  destruct (register_rejects_registered_phone
              (collaborators := sample_collaborators)
              (mkRegisterData (Some "0123456789") (Some "x") None None None)
              "0123456789" alice sample_db eq_refl
              ltac:(left; reflexivity) eq_refl)
    as (payload & Hrun & Hmsg).
  rewrite Hrun, Hmsg; [reflexivity | reflexivity | vm_compute; intuition discriminate].
Defined.

Lemma sample_db_profiles_have_owner : profiles_have_owner sample_db.
Proof.
  intros r Hin. simpl in Hin. destruct Hin as [<-|[<-|[]]].
  - exists alice. split; [left; reflexivity | reflexivity].
  - exists bob. split; [right; left; reflexivity | reflexivity].
Qed.

Lemma sample_db_settings_have_owner : settings_have_owner sample_db.
Proof.
  intros r Hin. simpl in Hin. destruct Hin as [<-|[<-|[]]].
  - exists alice. split; [left; reflexivity | reflexivity].
  - exists bob. split; [right; left; reflexivity | reflexivity].
Qed.

Lemma sample_db_consistent : store_consistent sample_db.
Proof.
  split; [exact sample_db_user_keys_unique|].
  split; [exact sample_db_profiles_have_owner|].
  split; [exact sample_db_settings_have_owner|].
  exact sample_db_labels_have_owner.
Qed.

Lemma register_preserves_consistency_witness :
  store_consistent registered_db
  /\ forall u, In u (db_users sample_db) -> In u (db_users registered_db).
Proof.
  assert (Hrun : RegisterView_post (collaborators := sample_collaborators)
                   new_registration sample_db
                 = (Return (mkResponse HTTP_201_CREATED (JsonUser dan)),
                    registered_db))
    by (vm_compute; reflexivity).
  destruct (register_preserves_consistency
              (collaborators := sample_collaborators)
              new_registration sample_db registered_db _
              sample_db_consistent Hrun)
    as (Hc & Hkeep & _).
  split; assumption.
Defined.

(** ** Auto-reply settings: reading, partial update and toggle *)

Section AutoReplyMore.

Context {collaborators : Collaborators}.

Lemma filter_map_commute {A} (p : A -> bool) (f : A -> A) (l : list A) :
  (forall x, In x l -> p (f x) = p x) ->
  filter p (map f l) = map f (filter p l).
Proof.
  induction l as [|a l IH]; intros H; simpl; [reflexivity|].
  rewrite (H a (or_introl eq_refl)).
  rewrite IH by (intros x Hx; apply H; right; exact Hx).
  destruct (p a); reflexivity.
Qed.

Lemma settings_rows_In (user : User) (db : DB) (r : UserSettings) :
  In r (settings_rows user db) <->
  In r (db_settings db) /\ settings_user r = user_id user.
Proof.
  unfold settings_rows. rewrite filter_In, Z.eqb_eq. reflexivity.
Qed.

(** Saving a new version of a user's only row leaves it the user's only
    row. *)
Lemma saved_row_lookup (user : User) (db : DB) (row s : UserSettings) :
  settings_keys_unique db ->
  settings_rows user db = [row] ->
  settings_id s = settings_id row ->
  settings_user s = settings_user row ->
  settings_rows user (snd (UserSettings_save s db)) = [s].
Proof.
  intros Hkeys Hrows Hid Hus.
  assert (Hrow : In row (settings_rows user db))
    by (rewrite Hrows; left; reflexivity).
  apply settings_rows_In in Hrow. destruct Hrow as [Hin Hu].
  unfold settings_rows in *. cbn [snd UserSettings_save db_settings set_settings].
  rewrite filter_map_commute.
  - rewrite Hrows. simpl. rewrite Hid, Z.eqb_refl. reflexivity.
  - intros x Hx. destruct (settings_id x =? settings_id s) eqn:E; [|reflexivity].
    apply Z.eqb_eq in E. rewrite Hid in E.
    rewrite (NoDup_map_eq settings_id _ x row Hkeys Hx Hin E).
    rewrite Hus. reflexivity.
Qed.

Lemma saved_keys (s : UserSettings) (db : DB) :
  map settings_id (db_settings (snd (UserSettings_save s db)))
  = map settings_id (db_settings db).
Proof.
  cbn [snd UserSettings_save db_settings set_settings].
  rewrite map_map. apply map_ext. intros r.
  destruct (settings_id r =? settings_id s) eqn:E; [|reflexivity].
  apply Z.eqb_eq in E. symmetry. exact E.
Qed.

(** Rows of other keys are untouched by a save. *)
Lemma saved_other_rows (s r : UserSettings) (db : DB) :
  In r (db_settings db) -> settings_id r <> settings_id s ->
  In r (db_settings (snd (UserSettings_save s db))).
Proof.
  intros Hin Hne. cbn [snd UserSettings_save db_settings set_settings].
  apply in_map_iff. exists r. split; [|exact Hin].
  destruct (settings_id r =? settings_id s) eqn:E; [|reflexivity].
  apply Z.eqb_eq in E. contradiction.
Qed.

Lemma get_existing (user : User) (db : DB) (row : UserSettings) :
  settings_rows user db = [row] ->
  AutoReplySettingsView_get user db
  = (Return (mkResponse HTTP_200_OK (JsonAutoReply row)), db).
Proof.
  intros Hrows. unfold AutoReplySettingsView_get, try_except, bind.
  rewrite (get_or_create_existing user db row Hrows). reflexivity.
Qed.

(** X9. Reading the auto-reply settings answers 200 with the user's row; a
    user without a row gets one inserted, no existing row is removed, and
    from then on the read changes nothing and answers the same row.  The
    user is assumed to have at most one settings row. *)
Theorem auto_reply_get_stable (user : User) (db : DB) :
  (List.length (settings_rows user db) <= 1)%nat ->
  exists row db1,
    AutoReplySettingsView_get user db
    = (Return (mkResponse HTTP_200_OK (JsonAutoReply row)), db1)
    /\ settings_rows user db1 = [row]
    /\ AutoReplySettingsView_get user db1
       = (Return (mkResponse HTTP_200_OK (JsonAutoReply row)), db1)
    /\ (forall r, In r (db_settings db) -> In r (db_settings db1))
    /\ (forall r, settings_rows user db = [r] -> db1 = db /\ row = r).
Proof.
  intros Hone.
  destruct (settings_rows user db) as [|r [|r' l]] eqn:Hrows.
  - destruct (get_or_create_missing user db Hrows) as (row & Hc & Hg).
    exists row. eexists.
    assert (Hnew : settings_rows user
                     (set_settings (db_settings db ++ [row]) db) = [row]).
    { apply UserSettings_objects_create_inv in Hc.
      destruct Hc as (_ & Hu & _).
      unfold settings_rows in *. cbn [db_settings set_settings].
      rewrite filter_app, Hrows. simpl. rewrite Hu, Z.eqb_refl. reflexivity. }
    split.
    { unfold AutoReplySettingsView_get, try_except, bind. rewrite Hg.
      reflexivity. }
    split; [exact Hnew|]. split; [apply get_existing; exact Hnew|].
    split.
    + intros x Hx. cbn [db_settings set_settings]. apply in_or_app. left.
      exact Hx.
    + intros x Hx. discriminate Hx.
  - exists r, db.
    split; [apply get_existing; exact Hrows|].
    split; [exact Hrows|]. split; [apply get_existing; exact Hrows|].
    split; [exact (fun x H => H)|].
    intros x Hx. injection Hx as <-. split; reflexivity.
  - simpl in Hone. lia.
Qed.

(** X10. Reading the settings keeps the one-to-one relation: when no user
    has more than one settings row before the read, none has after it. *)
Theorem auto_reply_get_keeps_one_row_per_user (user : User) (db : DB) :
  one_settings_row_per_user db ->
  one_settings_row_per_user (snd (AutoReplySettingsView_get user db)).
Proof.
  intros Hone.
  pose proof (Hone user) as Hu.
  destruct (settings_rows user db) as [|r [|r' l]] eqn:Hrows.
  - destruct (get_or_create_missing user db Hrows) as (row & Hc & Hg).
    unfold AutoReplySettingsView_get, try_except, bind. rewrite Hg.
    cbn [snd ret fst].
    apply UserSettings_objects_create_inv in Hc. destruct Hc as (_ & Hru & _).
    intros other. unfold settings_rows. cbn [db_settings set_settings].
    rewrite filter_app, length_app. simpl.
    destruct (settings_user row =? user_id other) eqn:E.
    + apply Z.eqb_eq in E.
      assert (Hsame : filter (fun s => settings_user s =? user_id other)
                             (db_settings db) = settings_rows user db).
      { unfold settings_rows. apply filter_ext. intros a.
        rewrite <- E, Hru. reflexivity. }
      rewrite Hsame, Hrows. simpl. lia.
    + pose proof (Hone other) as Ho. unfold settings_rows in Ho.
      simpl. lia.
  - rewrite (get_existing user db r Hrows). exact Hone.
  - simpl in Hu. lia.
Qed.

Lemma other_row_other_key (db : DB) (r row : UserSettings) :
  settings_keys_unique db ->
  In r (db_settings db) -> In row (db_settings db) -> r <> row ->
  settings_id r <> settings_id row.
Proof.
  intros Hkeys Hr Hrow Hne Heq. apply Hne.
  exact (NoDup_map_eq settings_id _ r row Hkeys Hr Hrow Heq).
Qed.

(** X11. An accepted auto-reply PUT is a partial update of the user's row:
    each supplied field takes its validated value (the message with the
    surrounding whitespace trimmed, a null date clearing the date), each
    absent field keeps its stored value, font and dark mode are never
    touched, the rows of other users are kept, and a following GET answers
    the saved row.  Settings keys are assumed unique and the user to have
    one row. *)
Theorem auto_reply_put_partial_update
    (user : User) (d : AutoReplyData) (db : DB) (row : UserSettings) :
  settings_keys_unique db ->
  settings_rows user db = [row] ->
  AutoReplySettingsSerializer_is_valid d = true ->
  (forall s e, put_auto_reply_start_date d = Some (DateValue s) ->
               put_auto_reply_end_date d = Some (DateValue e) -> s <= e) ->
  exists saved db',
    AutoReplySettingsView_put user d db
    = (Return (mkResponse HTTP_200_OK (JsonAutoReply saved)), db')
    /\ settings_rows user db' = [saved]
    /\ AutoReplySettingsView_get user db'
       = (Return (mkResponse HTTP_200_OK (JsonAutoReply saved)), db')
    /\ (forall b, put_auto_reply_enabled d = Some b ->
                  auto_reply_enabled saved = b)
    /\ (put_auto_reply_enabled d = None ->
        auto_reply_enabled saved = auto_reply_enabled row)
    /\ (forall m, put_auto_reply_message d = Some m ->
                  auto_reply_message saved = strip m)
    /\ (put_auto_reply_message d = None ->
        auto_reply_message saved = auto_reply_message row)
    /\ (forall t, put_auto_reply_start_date d = Some (DateValue t) ->
                  auto_reply_start_date saved = Some t)
    /\ (put_auto_reply_start_date d = Some DateNull ->
        auto_reply_start_date saved = None)
    /\ (put_auto_reply_start_date d = None ->
        auto_reply_start_date saved = auto_reply_start_date row)
    /\ (forall t, put_auto_reply_end_date d = Some (DateValue t) ->
                  auto_reply_end_date saved = Some t)
    /\ (put_auto_reply_end_date d = Some DateNull ->
        auto_reply_end_date saved = None)
    /\ (put_auto_reply_end_date d = None ->
        auto_reply_end_date saved = auto_reply_end_date row)
    /\ font saved = font row
    /\ dark_mode saved = dark_mode row
    /\ (forall r, In r (db_settings db) -> r <> row ->
                  In r (db_settings db')).
Proof.
  intros Hkeys Hrows Hvalid Hrange.
  assert (Hrow : In row (db_settings db)).
  { assert (H : In row (settings_rows user db))
      by (rewrite Hrows; left; reflexivity).
    apply settings_rows_In in H. apply H. }
  assert (Hsa : starts_after
                  (validated_date (put_auto_reply_start_date d))
                  (validated_date (put_auto_reply_end_date d)) = false).
  { destruct (put_auto_reply_start_date d) as [[|s|]|] eqn:Es;
      try reflexivity.
    destruct (put_auto_reply_end_date d) as [[|e|]|] eqn:Ee;
      try reflexivity.
    simpl. specialize (Hrange s e eq_refl eq_refl).
    rewrite Z.gtb_ltb. apply Z.ltb_ge. exact Hrange. }
  unfold AutoReplySettingsView_put, try_except, bind at 1.
  rewrite (get_or_create_existing user db row Hrows).
  cbn [fst]. rewrite Hvalid, Hsa.
  unfold bind at 1, AutoReplySettingsSerializer_save, bind at 1.
  set (saved := mkUserSettings (settings_id row) (settings_user row) _ _ _ _
                               (font row) (dark_mode row)).
  cbn [ret].
  exists saved. eexists. split; [reflexivity|].
  assert (Hlook : settings_rows user (snd (UserSettings_save saved db))
                  = [saved])
    by (apply (saved_row_lookup user db row saved Hkeys Hrows); reflexivity).
  split; [exact Hlook|]. split; [apply get_existing; exact Hlook|].
  subst saved. cbn [auto_reply_enabled auto_reply_message
                    auto_reply_start_date auto_reply_end_date font dark_mode].
  repeat split.
  - intros b ->. reflexivity.
  - intros ->. reflexivity.
  - intros m ->. reflexivity.
  - intros ->. reflexivity.
  - intros t ->. reflexivity.
  - intros ->. reflexivity.
  - intros ->. reflexivity.
  - intros t ->. reflexivity.
  - intros ->. reflexivity.
  - intros ->. reflexivity.
  - intros r Hr Hne. apply saved_other_rows; [exact Hr|].
    cbn [settings_id].
    apply (other_row_other_key db r row Hkeys Hr Hrow Hne).
Qed.

(** X12. The date check of PUT looks at the request only: a request that
    supplies start_date alone is saved whatever end_date the row stores,
    so that the stored window may end before it starts. *)
Theorem auto_reply_put_single_date_unchecked
    (user : User) (d : AutoReplyData) (db : DB) (row : UserSettings)
    (s e : Z) :
  settings_rows user db = [row] ->
  AutoReplySettingsSerializer_is_valid d = true ->
  put_auto_reply_start_date d = Some (DateValue s) ->
  put_auto_reply_end_date d = None ->
  auto_reply_end_date row = Some e ->
  exists saved db',
    AutoReplySettingsView_put user d db
    = (Return (mkResponse HTTP_200_OK (JsonAutoReply saved)), db')
    /\ In saved (db_settings db')
    /\ auto_reply_start_date saved = Some s
    /\ auto_reply_end_date saved = Some e.
Proof.
  intros Hrows Hvalid Hs He Hrow_end.
  assert (Hrow : In row (db_settings db)).
  { assert (H : In row (settings_rows user db))
      by (rewrite Hrows; left; reflexivity).
    apply settings_rows_In in H. apply H. }
  unfold AutoReplySettingsView_put, try_except, bind at 1.
  rewrite (get_or_create_existing user db row Hrows).
  cbn [fst]. rewrite Hvalid, Hs, He. cbn [validated_date starts_after].
  unfold bind at 1, AutoReplySettingsSerializer_save, bind at 1.
  rewrite Hs, He. cbn [update_date validated_date ret].
  eexists. eexists. split; [reflexivity|].
  split; [|split; [reflexivity | exact Hrow_end]].
  apply (UserSettings_save_stored row); [exact Hrow | reflexivity].
Qed.

(** What one PATCH does to the row that get-or-create hands out. *)
Lemma patch_effect
    (now1 now2 : Z) (user : User) (db db0 : DB)
    (row : UserSettings) (created : bool) :
  UserSettings_objects_get_or_create user db = (Return (row, created), db0) ->
  exists row',
    AutoReplySettingsView_patch now1 now2 user db
    = (Return (mkResponse HTTP_200_OK (JsonAutoReply row')),
       snd (UserSettings_save row' db0))
    /\ settings_id row' = settings_id row
    /\ settings_user row' = settings_user row
    /\ auto_reply_enabled row' = negb (auto_reply_enabled row)
    /\ auto_reply_message row' = auto_reply_message row
    /\ font row' = font row
    /\ dark_mode row' = dark_mode row
    /\ (forall a, auto_reply_start_date row = Some a ->
                  auto_reply_start_date row' = Some a)
    /\ (forall b, auto_reply_end_date row = Some b ->
                  auto_reply_end_date row' = Some b)
    /\ (auto_reply_enabled row = true ->
        auto_reply_start_date row' = auto_reply_start_date row
        /\ auto_reply_end_date row' = auto_reply_end_date row)
    /\ (auto_reply_enabled row = false ->
        auto_reply_start_date row = None ->
        auto_reply_start_date row' = Some now1)
    /\ (auto_reply_enabled row = false ->
        auto_reply_end_date row = None ->
        auto_reply_end_date row' = Some (now2 + timedelta_days 30)).
Proof.
  intros Hget.
  unfold AutoReplySettingsView_patch, try_except, bind. rewrite Hget.
  cbn [fst].
  destruct row as [i u en msg st ed fnt dm].
  unfold set_auto_reply_enabled, set_auto_reply_start_date,
    set_auto_reply_end_date.
  cbn [settings_id settings_user auto_reply_enabled auto_reply_message
       auto_reply_start_date auto_reply_end_date font dark_mode].
  destruct en, st as [a|], ed as [b|];
    cbn [negb is_set settings_id settings_user auto_reply_enabled
         auto_reply_message auto_reply_start_date auto_reply_end_date
         font dark_mode];
    unfold UserSettings_save at 1; unfold ret;
    (eexists; split; [reflexivity|]);
    cbn [settings_id settings_user auto_reply_enabled auto_reply_message
         auto_reply_start_date auto_reply_end_date font dark_mode];
    repeat split; try (intros; assumption); try discriminate;
    intros; try discriminate; reflexivity.
Qed.

(** X13. One auto-reply PATCH flips the enabled flag and stores the row;
    it keeps message, font and dark mode, keeps every date that is set,
    changes no date when it disables, and when it enables fills a missing
    start_date with the current time and a missing end_date with the
    current time plus 30 days, whatever the other date is. *)
Theorem auto_reply_patch_toggle
    (now1 now2 : Z) (user : User) (db db0 : DB)
    (row : UserSettings) (created : bool) :
  UserSettings_objects_get_or_create user db = (Return (row, created), db0) ->
  exists row' db',
    AutoReplySettingsView_patch now1 now2 user db
    = (Return (mkResponse HTTP_200_OK (JsonAutoReply row')), db')
    /\ In row' (db_settings db')
    /\ auto_reply_enabled row' = negb (auto_reply_enabled row)
    /\ auto_reply_message row' = auto_reply_message row
    /\ font row' = font row
    /\ dark_mode row' = dark_mode row
    /\ (forall a, auto_reply_start_date row = Some a ->
                  auto_reply_start_date row' = Some a)
    /\ (forall b, auto_reply_end_date row = Some b ->
                  auto_reply_end_date row' = Some b)
    /\ (auto_reply_enabled row = true ->
        auto_reply_start_date row' = auto_reply_start_date row
        /\ auto_reply_end_date row' = auto_reply_end_date row)
    /\ (auto_reply_enabled row = false ->
        auto_reply_start_date row = None ->
        auto_reply_start_date row' = Some now1)
    /\ (auto_reply_enabled row = false ->
        auto_reply_end_date row = None ->
        auto_reply_end_date row' = Some (now2 + timedelta_days 30)).
Proof.
  intros Hget.
  destruct (patch_effect now1 now2 user db db0 row created Hget)
    as (row' & Hrun & Hid & Hus & Hrest).
  exists row'. eexists. split; [exact Hrun|]. split; [|exact Hrest].
  apply (UserSettings_save_stored row); [|exact Hid].
  exact (get_or_create_stored user db db0 row created Hget).
Qed.

(** X14. Two auto-reply PATCHes in a row restore the enabled flag; every
    date present after the first is still there after the second, and a
    GET after the second answers the row the second returned.  Settings
    keys are assumed unique and the user to have one row. *)
Theorem auto_reply_patch_twice
    (now1 now2 now3 now4 : Z) (user : User) (db : DB) (row : UserSettings) :
  settings_keys_unique db ->
  settings_rows user db = [row] ->
  exists row1 db1 row2 db2,
    AutoReplySettingsView_patch now1 now2 user db
    = (Return (mkResponse HTTP_200_OK (JsonAutoReply row1)), db1)
    /\ AutoReplySettingsView_patch now3 now4 user db1
       = (Return (mkResponse HTTP_200_OK (JsonAutoReply row2)), db2)
    /\ auto_reply_enabled row1 = negb (auto_reply_enabled row)
    /\ auto_reply_enabled row2 = auto_reply_enabled row
    /\ (forall a, auto_reply_start_date row1 = Some a ->
                  auto_reply_start_date row2 = Some a)
    /\ (forall b, auto_reply_end_date row1 = Some b ->
                  auto_reply_end_date row2 = Some b)
    /\ AutoReplySettingsView_get user db2
       = (Return (mkResponse HTTP_200_OK (JsonAutoReply row2)), db2).
Proof.
  intros Hkeys Hrows.
  destruct (patch_effect now1 now2 user db db row false
              (get_or_create_existing user db row Hrows))
    as (row1 & Hrun1 & Hid1 & Hus1 & Hen1 & _ & _ & _ & _ & _ & _).
  pose proof (saved_row_lookup user db row row1 Hkeys Hrows Hid1 Hus1)
    as Hrows1.
  assert (Hkeys1 : settings_keys_unique (snd (UserSettings_save row1 db))).
  { unfold settings_keys_unique. rewrite saved_keys. exact Hkeys. }
  destruct (patch_effect now3 now4 user _ _ row1 false
              (get_or_create_existing user _ row1 Hrows1))
    as (row2 & Hrun2 & Hid2 & Hus2 & Hen2 & _ & _ & _ & Hst & Hed & _).
  pose proof (saved_row_lookup user _ row1 row2 Hkeys1 Hrows1 Hid2 Hus2)
    as Hrows2.
  exists row1. eexists. exists row2. eexists.
  split; [exact Hrun1|]. split; [exact Hrun2|].
  split; [exact Hen1|].
  split; [rewrite Hen2, Hen1; apply negb_involutive|].
  split; [exact Hst|]. split; [exact Hed|].
  apply get_existing. exact Hrows2.
Qed.

End AutoReplyMore.

Lemma sample_db_settings_keys_unique : settings_keys_unique sample_db.
Proof.
  unfold settings_keys_unique. simpl.
  repeat constructor; simpl; intuition discriminate.
Qed.

Lemma auto_reply_get_stable_witness :
  exists db1,
    AutoReplySettingsView_get (collaborators := sample_collaborators)
      carol sample_db
    = (Return (mkResponse HTTP_200_OK (JsonAutoReply carol_settings)), db1)
    /\ AutoReplySettingsView_get (collaborators := sample_collaborators)
         carol db1
       = (Return (mkResponse HTTP_200_OK (JsonAutoReply carol_settings)), db1).
Proof.
  destruct (auto_reply_get_stable (collaborators := sample_collaborators)
              carol sample_db ltac:(simpl; lia))
    as (row & db1 & Hget & _ & Hagain & _).
  assert (Hrow : row = carol_settings).
  { assert (H : AutoReplySettingsView_get
                  (collaborators := sample_collaborators) carol sample_db
                = (Return (mkResponse HTTP_200_OK
                                      (JsonAutoReply carol_settings)),
                   snd (AutoReplySettingsView_get
                          (collaborators := sample_collaborators)
                          carol sample_db)))
      by (vm_compute; reflexivity).
    rewrite H in Hget. injection Hget as Hr _. symmetry. exact Hr. }
  subst row. exists db1. split; assumption.
Defined.

Lemma sample_db_one_settings_row_per_user :
  one_settings_row_per_user sample_db.
Proof.
  intros user. unfold settings_rows, sample_db.
  cbn [db_settings filter settings_user].
  destruct (1 =? user_id user) eqn:E1; destruct (2 =? user_id user) eqn:E2;
    cbn [List.length]; lia.
Qed.

Lemma auto_reply_get_keeps_one_row_per_user_witness :
  one_settings_row_per_user
    (snd (AutoReplySettingsView_get (collaborators := sample_collaborators)
            carol sample_db)).
Proof.
  exact (auto_reply_get_keeps_one_row_per_user
           (collaborators := sample_collaborators) carol sample_db
           sample_db_one_settings_row_per_user).
Defined.

Lemma auto_reply_put_partial_update_witness :
  exists saved db',
    AutoReplySettingsView_put (collaborators := sample_collaborators)
      bob (mkAutoReplyData None (Some " back soon ") (Some DateNull) None)
      sample_db
    = (Return (mkResponse HTTP_200_OK (JsonAutoReply saved)), db')
    /\ auto_reply_enabled saved = true
    /\ auto_reply_message saved = "back soon"
    /\ auto_reply_start_date saved = None
    /\ auto_reply_end_date saved = Some 20.
Proof.
  destruct (auto_reply_put_partial_update
              (collaborators := sample_collaborators) bob
              (mkAutoReplyData None (Some " back soon ") (Some DateNull) None)
              sample_db
              (mkUserSettings 2 2 true "away" (Some 10) (Some 20) "Arial" false)
              sample_db_settings_keys_unique eq_refl eq_refl)
    as (saved & db' & Hrun & _ & _ & _ & Hen & Hmsg & _ & _ & Hst & _ & _ & _
        & Hed & _).
  - intros s e H. discriminate H.
  - exists saved, db'. split; [exact Hrun|].
    split; [exact (Hen eq_refl)|]. split; [exact (Hmsg _ eq_refl)|].
    split; [exact (Hst eq_refl) | exact (Hed eq_refl)].
Defined.

Lemma auto_reply_put_single_date_unchecked_witness :
  exists saved db',
    AutoReplySettingsView_put (collaborators := sample_collaborators)
      bob (mkAutoReplyData None None (Some (DateValue 600)) None) sample_db
    = (Return (mkResponse HTTP_200_OK (JsonAutoReply saved)), db')
    /\ In saved (db_settings db')
    /\ auto_reply_start_date saved = Some 600
    /\ auto_reply_end_date saved = Some 20.
Proof.
  exact (auto_reply_put_single_date_unchecked
           (collaborators := sample_collaborators) bob
           (mkAutoReplyData None None (Some (DateValue 600)) None) sample_db
           (mkUserSettings 2 2 true "away" (Some 10) (Some 20) "Arial" false)
           600 20 eq_refl eq_refl eq_refl eq_refl eq_refl).
Defined.

Lemma auto_reply_patch_toggle_witness :
  exists row' db',
    AutoReplySettingsView_patch (collaborators := sample_collaborators)
      1000 1001 bob sample_db
    = (Return (mkResponse HTTP_200_OK (JsonAutoReply row')), db')
    /\ auto_reply_enabled row' = false
    /\ auto_reply_start_date row' = Some 10
    /\ auto_reply_end_date row' = Some 20.
Proof.
  destruct (auto_reply_patch_toggle (collaborators := sample_collaborators)
              1000 1001 bob sample_db sample_db
              (mkUserSettings 2 2 true "away" (Some 10) (Some 20) "Arial" false)
              false eq_refl)
    as (row' & db' & Hrun & _ & Hen & _ & _ & _ & _ & _ & Hkeep & _).
  exists row', db'. split; [exact Hrun|]. split; [exact Hen|].
  exact (Hkeep eq_refl).
Defined.

Lemma auto_reply_patch_twice_witness :
  exists row1 db1 row2 db2,
    AutoReplySettingsView_patch (collaborators := sample_collaborators)
      1000 1001 alice sample_db
    = (Return (mkResponse HTTP_200_OK (JsonAutoReply row1)), db1)
    /\ AutoReplySettingsView_patch (collaborators := sample_collaborators)
         2000 2001 alice db1
       = (Return (mkResponse HTTP_200_OK (JsonAutoReply row2)), db2)
    /\ auto_reply_enabled row1 = true
    /\ auto_reply_enabled row2 = false.
Proof.
  destruct (auto_reply_patch_twice (collaborators := sample_collaborators)
              1000 1001 2000 2001 alice sample_db
              (mkUserSettings 1 1 false "" None None "Arial" false)
              sample_db_settings_keys_unique eq_refl)
    as (row1 & db1 & row2 & db2 & H1 & H2 & He1 & He2 & _).
  exists row1, db1, row2, db2. repeat split; assumption.
Defined.

(** ** Dark mode *)

Section DarkMode.

Context {collaborators : Collaborators}.

Lemma dark_mode_get_existing (user : User) (db : DB) (row : UserSettings) :
  settings_rows user db = [row] ->
  DarkModeToggleView_get user db
  = (Return (mkReply HTTP_200_OK (BodyDarkMode (JsonBool (dark_mode row)))),
     db).
Proof.
  intros Hrows. unfold DarkModeToggleView_get, try_except, bind.
  rewrite (get_or_create_existing user db row Hrows). reflexivity.
Qed.

Lemma dark_mode_patch_converted
    (user : User) (db : DB) (row : UserSettings) (v : JsonValue) (b : bool) :
  settings_rows user db = [row] ->
  BooleanField_to_python v = Some b ->
  DarkModeToggleView_patch user (Some v) db
  = (Return (mkReply HTTP_200_OK (BodyDarkMode v)),
     snd (UserSettings_save (set_dark_mode b row) db)).
Proof.
  intros Hrows Hconv. unfold DarkModeToggleView_patch, try_except, bind.
  rewrite (get_or_create_existing user db row Hrows). cbn [fst].
  unfold save_dark_mode. rewrite Hconv. reflexivity.
Qed.

(** X15. A dark-mode PATCH whose value converts to a boolean answers 200
    echoing the value as sent, stores the converted boolean in the user's
    row without touching its other fields or the rows of other users, and a
    following GET answers that boolean; repeating the PATCH changes nothing
    more.  Settings keys are assumed unique and the user to have one row. *)
Theorem dark_mode_patch_then_get
    (user : User) (db : DB) (row : UserSettings) (v : JsonValue) (b : bool) :
  settings_keys_unique db ->
  settings_rows user db = [row] ->
  BooleanField_to_python v = Some b ->
  exists db',
    DarkModeToggleView_patch user (Some v) db
    = (Return (mkReply HTTP_200_OK (BodyDarkMode v)), db')
    /\ settings_rows user db' = [set_dark_mode b row]
    /\ DarkModeToggleView_get user db'
       = (Return (mkReply HTTP_200_OK (BodyDarkMode (JsonBool b))), db')
    /\ DarkModeToggleView_patch user (Some v) db'
       = (Return (mkReply HTTP_200_OK (BodyDarkMode v)), db')
    /\ (forall r, In r (db_settings db) -> r <> row ->
                  In r (db_settings db')).
Proof.
  intros Hkeys Hrows Hconv.
  assert (Hrow : In row (db_settings db)).
  { assert (H : In row (settings_rows user db))
      by (rewrite Hrows; left; reflexivity).
    apply settings_rows_In in H. apply H. }
  pose proof (saved_row_lookup user db row (set_dark_mode b row) Hkeys Hrows
                eq_refl eq_refl) as Hlook.
  eexists. split; [apply dark_mode_patch_converted; eassumption|].
  split; [exact Hlook|].
  split; [rewrite (dark_mode_get_existing user _ _ Hlook); reflexivity|].
  split.
  - rewrite (dark_mode_patch_converted user _ _ v b Hlook Hconv).
    f_equal.
    cbn [snd UserSettings_save db_settings set_settings settings_id
         set_dark_mode].
    unfold set_settings. cbn [db_users db_profiles db_settings db_labels
                              db_emails db_attachments].
    f_equal. rewrite map_map. apply map_ext. intros r.
    destruct (settings_id r =? settings_id row) eqn:E.
    + cbn [settings_id]. rewrite Z.eqb_refl. reflexivity.
    + rewrite E. reflexivity.
  - intros r Hr Hne. apply saved_other_rows; [exact Hr|].
    cbn [settings_id set_dark_mode].
    apply (other_row_other_key db r row Hkeys Hr Hrow Hne).
Qed.

(** X16. A dark-mode PATCH without the field (or with a null) answers 400
    "dark_mode field is required", and one whose value converts to no
    boolean answers 500; for a user who has a settings row neither writes
    anything. *)
Theorem dark_mode_patch_rejects
    (user : User) (db : DB) (row : UserSettings) :
  settings_rows user db = [row] ->
  DarkModeToggleView_patch user None db
  = (Return (mkReply HTTP_400_BAD_REQUEST
               (BodyPayload (JsonError "dark_mode field is required"))),
     db)
  /\ forall v, BooleanField_to_python v = None ->
       exists e,
         DarkModeToggleView_patch user (Some v) db
         = (Return (mkReply HTTP_500_INTERNAL_SERVER_ERROR
                      (BodyPayload
                         (JsonErrorDetails "Unable to set dark mode" e))),
            db).
Proof.
  intros Hrows. split.
  - unfold DarkModeToggleView_patch, try_except, bind.
    rewrite (get_or_create_existing user db row Hrows). reflexivity.
  - intros v Hconv. eexists.
    unfold DarkModeToggleView_patch, try_except, bind.
    rewrite (get_or_create_existing user db row Hrows). cbn [fst].
    unfold save_dark_mode. rewrite Hconv. reflexivity.
Qed.

End DarkMode.

Lemma dark_mode_patch_then_get_witness :
  exists db',
    DarkModeToggleView_patch (collaborators := sample_collaborators)
      alice (Some (JsonString "1")) sample_db
    = (Return (mkReply HTTP_200_OK (BodyDarkMode (JsonString "1"))), db')
    /\ DarkModeToggleView_get (collaborators := sample_collaborators)
         alice db'
       = (Return (mkReply HTTP_200_OK (BodyDarkMode (JsonBool true))), db').
Proof.
  destruct (dark_mode_patch_then_get (collaborators := sample_collaborators)
              alice sample_db
              (mkUserSettings 1 1 false "" None None "Arial" false)
              (JsonString "1") true
              sample_db_settings_keys_unique eq_refl eq_refl)
    as (db' & Hpatch & _ & Hget & _).
  exists db'. split; assumption.
Defined.

Lemma dark_mode_patch_rejects_witness :
  DarkModeToggleView_patch (collaborators := sample_collaborators)
    alice None sample_db
  = (Return (mkReply HTTP_400_BAD_REQUEST
               (BodyPayload (JsonError "dark_mode field is required"))),
     sample_db)
  /\ exists e,
       DarkModeToggleView_patch (collaborators := sample_collaborators)
         alice (Some (JsonString "yes")) sample_db
       = (Return (mkReply HTTP_500_INTERNAL_SERVER_ERROR
                    (BodyPayload
                       (JsonErrorDetails "Unable to set dark mode" e))),
          sample_db).
Proof.
  destruct (dark_mode_patch_rejects (collaborators := sample_collaborators)
              alice sample_db
              (mkUserSettings 1 1 false "" None None "Arial" false) eq_refl)
    as (Hnone & Hbad).
  split; [exact Hnone | apply Hbad; reflexivity].
Defined.

(** ** Two-factor setup: the generated code and its verification *)

Lemma digit_char_isdigit (d : Z) :
  0 <= d <= 9 -> char_isdigit (digit_char d) = true.
Proof.
  intros H.
  assert (Hd : d = 0 \/ d = 1 \/ d = 2 \/ d = 3 \/ d = 4 \/ d = 5 \/ d = 6
               \/ d = 7 \/ d = 8 \/ d = 9) by lia.
  repeat (destruct Hd as [->|Hd]; [reflexivity|]). subst d. reflexivity.
Qed.

(** The rendering of a number of six decimal digits. *)
Lemma str_six_digits (n : Z) :
  100000 <= n <= 999999 ->
  str n
  = String (digit_char (n / 100000 mod 10))
      (String (digit_char (n / 10000 mod 10))
         (String (digit_char (n / 1000 mod 10))
            (String (digit_char (n / 100 mod 10))
               (String (digit_char (n / 10 mod 10))
                  (String (digit_char (n mod 10)) ""))))).
Proof.
  intros Hn. unfold str.
  assert (Hneg : (n <? 0) = false) by (apply Z.ltb_ge; lia).
  rewrite Hneg.
  assert (Hlog : 16 <= Z.log2 n).
  { change 16 with (Z.log2 65536). apply Z.log2_le_mono. lia. }
  assert (Hfuel : exists k, Z.to_nat (Z.log2 n) = (5 + k)%nat).
  { exists (Z.to_nat (Z.log2 n) - 5)%nat. lia. }
  destruct Hfuel as (k & ->).
  cbn [Nat.add str_digits].
  assert (H1 : (n / 10 =? 0) = false) by (apply Z.eqb_neq; Z.div_mod_to_equations; lia).
  assert (H2 : (n / 10 / 10 =? 0) = false) by (apply Z.eqb_neq; Z.div_mod_to_equations; lia).
  assert (H3 : (n / 10 / 10 / 10 =? 0) = false) by (apply Z.eqb_neq; Z.div_mod_to_equations; lia).
  assert (H4 : (n / 10 / 10 / 10 / 10 =? 0) = false)
    by (apply Z.eqb_neq; Z.div_mod_to_equations; lia).
  assert (H5 : (n / 10 / 10 / 10 / 10 / 10 =? 0) = false)
    by (apply Z.eqb_neq; Z.div_mod_to_equations; lia).
  assert (H6 : (n / 10 / 10 / 10 / 10 / 10 / 10 =? 0) = true)
    by (apply Z.eqb_eq; Z.div_mod_to_equations; lia).
  rewrite H1, H2, H3, H4, H5, H6.
  replace (n / 10 / 10 / 10 / 10 / 10) with (n / 100000) by (Z.div_mod_to_equations; lia).
  replace (n / 10 / 10 / 10 / 10) with (n / 10000) by (Z.div_mod_to_equations; lia).
  replace (n / 10 / 10 / 10) with (n / 1000) by (Z.div_mod_to_equations; lia).
  replace (n / 10 / 10) with (n / 100) by (Z.div_mod_to_equations; lia).
  reflexivity.
Qed.

Lemma generated_code_digits (randint : Z) :
  100000 <= randint <= 999999 ->
  len (generate_verification_code randint) = 6
  /\ isdigit (generate_verification_code randint) = true.
Proof.
  intros Hn. unfold generate_verification_code.
  rewrite (str_six_digits randint Hn).
  split; [reflexivity|].
  unfold isdigit. cbn [String.eqb negb all_chars andb].
  rewrite !digit_char_isdigit by (Z.div_mod_to_equations; lia).
  reflexivity.
Qed.

(** X17. Every code that [generate_verification_code] can produce, that
    is the rendering of a draw between 100000 and 999999, has six
    characters, all digits, and passes [verify_two_factor_code]. *)
Theorem generated_code_verifies (randint : Z) (db : DB) :
  100000 <= randint <= 999999 ->
  len (generate_verification_code randint) = 6
  /\ isdigit (generate_verification_code randint) = true
  /\ verify_two_factor_code (Some (generate_verification_code randint)) db
     = (Return true, db).
Proof.
  intros Hn. destruct (generated_code_digits randint Hn) as (Hlen & Hdig).
  split; [exact Hlen|]. split; [exact Hdig|].
  unfold verify_two_factor_code, ret. rewrite Hlen, Hdig. reflexivity.
Qed.

Lemma generated_code_verifies_witness :
  generate_verification_code 100000 = "100000"
  /\ generate_verification_code 999999 = "999999"
  /\ verify_two_factor_code (Some (generate_verification_code 482913))
       sample_db
     = (Return true, sample_db).
Proof.
  split; [reflexivity|]. split; [reflexivity|].
  apply (generated_code_verifies 482913 sample_db). lia.
Defined.

Lemma two_factor_put_code (user : User) (db : DB) (p : UserProfile) (c : string) :
  profile_rows user db = [p] ->
  TwoFactorSetupView_put user (Some c) db
  = if (len c =? 6) && isdigit c
    then (Return (mkResponse HTTP_200_OK
                    (JsonMessage "Two-factor authentication enabled")),
          snd (UserProfile_save (set_two_factor_enabled true p) db))
    else (Return (mkResponse HTTP_400_BAD_REQUEST
                    (JsonError "Invalid verification code")),
          db).
Proof.
  intros Hp. unfold TwoFactorSetupView_put, bind at 1.
  rewrite (user_profile_found user db p Hp).
  unfold bind, verify_two_factor_code, ret.
  destruct ((len c =? 6) && isdigit c); reflexivity.
Qed.

(** X18. The two-factor POST answers 200 with a generated code and stores
    nothing; a PUT with that code enables two-factor authentication, and
    so does, with the same answer and the same store, a PUT with any other
    string of six digits: the code sent is never compared with the code
    issued.  The caller is assumed to have a profile. *)
Theorem two_factor_post_then_put
    (randint : Z) (user : User) (db : DB) (p : UserProfile) :
  profile_rows user db = [p] ->
  100000 <= randint <= 999999 ->
  exists code db',
    TwoFactorSetupView_post randint user db
    = (Return (mkReply HTTP_200_OK
                 (BodyVerificationCode "Verification code generated" code)),
       db)
    /\ TwoFactorSetupView_put user (Some code) db
       = (Return (mkResponse HTTP_200_OK
                    (JsonMessage "Two-factor authentication enabled")),
          db')
    /\ In (set_two_factor_enabled true p) (db_profiles db')
    /\ forall c, len c = 6 -> isdigit c = true ->
         TwoFactorSetupView_put user (Some c) db
         = (Return (mkResponse HTTP_200_OK
                      (JsonMessage "Two-factor authentication enabled")),
            db').
Proof.
  intros Hp Hn.
  destruct (generated_code_digits randint Hn) as (Hlen & Hdig).
  assert (Hpin : In p (db_profiles db)).
  { assert (H : In p (profile_rows user db)) by (rewrite Hp; left; reflexivity).
    unfold profile_rows in H. apply filter_In in H. apply H. }
  exists (generate_verification_code randint). eexists.
  split.
  { unfold TwoFactorSetupView_post, bind.
    rewrite (user_profile_found user db p Hp). reflexivity. }
  split.
  { rewrite (two_factor_put_code user db p _ Hp), Hlen, Hdig. reflexivity. }
  split.
  { cbn [snd UserProfile_save db_profiles set_profiles].
    apply in_map_iff. exists p. split; [|exact Hpin].
    cbn [profile_id set_two_factor_enabled]. rewrite Z.eqb_refl. reflexivity. }
  intros c Hc Hd.
  rewrite (two_factor_put_code user db p c Hp), Hc, Hd. reflexivity.
Qed.

Lemma profile_upgraded_refl (l : list UserProfile) :
  Forall2 profile_upgraded l l.
Proof.
  induction l as [|a l IH]; constructor; [|exact IH].
  repeat split. exact (fun H => H).
Qed.

Lemma enabled_rows_upgraded (p : UserProfile) (l : list UserProfile) :
  NoDup (map profile_id l) -> In p l ->
  Forall2 profile_upgraded l
    (map (fun r => if profile_id r =? profile_id (set_two_factor_enabled true p)
                   then set_two_factor_enabled true p else r) l).
Proof.
  intros Hnd Hp.
  assert (H : forall x, In x l ->
            profile_upgraded x
              (if profile_id x =? profile_id (set_two_factor_enabled true p)
               then set_two_factor_enabled true p else x)).
  { intros x Hx. cbn [profile_id set_two_factor_enabled].
    destruct (profile_id x =? profile_id p) eqn:E.
    - apply Z.eqb_eq in E.
      rewrite (NoDup_map_eq profile_id l x p Hnd Hx Hp E).
      repeat split.
    - repeat split. exact (fun H => H). }
  clear Hnd Hp. induction l as [|a l IH]; simpl; constructor.
  - apply H. left. reflexivity.
  - apply IH. intros x Hx. apply H. right. exact Hx.
Qed.

(** X19. Whatever the code and whatever the outcome, a two-factor PUT
    keeps the profile table row for row: no profile is added or removed,
    none changes in anything but the two-factor flag, and no flag that was
    set is cleared; the other tables do not change.  Profile keys are
    assumed unique. *)
Theorem two_factor_put_upgrades_profiles
    (user : User) (code : option string) (db : DB) :
  profile_keys_unique db ->
  let db' := snd (TwoFactorSetupView_put user code db) in
  Forall2 profile_upgraded (db_profiles db) (db_profiles db')
  /\ db_users db' = db_users db
  /\ db_settings db' = db_settings db
  /\ db_labels db' = db_labels db
  /\ db_emails db' = db_emails db
  /\ db_attachments db' = db_attachments db.
Proof.
  intros Hkeys db'. subst db'.
  assert (Hsame : forall x : DB, x = db ->
            Forall2 profile_upgraded (db_profiles db) (db_profiles x)
            /\ db_users x = db_users db
            /\ db_settings x = db_settings db
            /\ db_labels x = db_labels db
            /\ db_emails x = db_emails db
            /\ db_attachments x = db_attachments db).
  { intros x ->. split; [apply profile_upgraded_refl | repeat split]. }
  destruct (profile_rows user db) as [|p [|q l]] eqn:Hp.
  - apply Hsame. rewrite (two_factor_put_without_profile user code db Hp).
    reflexivity.
  - destruct code as [c|].
    + rewrite (two_factor_put_code user db p c Hp).
      destruct ((len c =? 6) && isdigit c); [|apply Hsame; reflexivity].
      cbn [snd UserProfile_save db_profiles set_profiles db_users db_settings
           db_labels db_emails db_attachments].
      split; [|repeat split].
      apply enabled_rows_upgraded; [exact Hkeys|].
      assert (H : In p (profile_rows user db))
        by (rewrite Hp; left; reflexivity).
      unfold profile_rows in H. apply filter_In in H. apply H.
    + apply Hsame. unfold TwoFactorSetupView_put, bind at 1.
      rewrite (user_profile_found user db p Hp). reflexivity.
  - apply Hsame.
    unfold TwoFactorSetupView_put, bind, user_profile, try_except, objects_get.
    unfold profile_rows in Hp. rewrite Hp. reflexivity.
Qed.

Lemma two_factor_post_then_put_witness :
  exists code db',
    TwoFactorSetupView_post 482913 alice sample_db
    = (Return (mkReply HTTP_200_OK
                 (BodyVerificationCode "Verification code generated" code)),
       sample_db)
    /\ TwoFactorSetupView_put alice (Some code) sample_db
       = (Return (mkResponse HTTP_200_OK
                    (JsonMessage "Two-factor authentication enabled")),
          db')
    /\ TwoFactorSetupView_put alice (Some "000000") sample_db
       = (Return (mkResponse HTTP_200_OK
                    (JsonMessage "Two-factor authentication enabled")),
          db').
Proof.
  destruct (two_factor_post_then_put 482913 alice sample_db
              (mkUserProfile 1 1 "" None None false) eq_refl ltac:(lia))
    as (code & db' & Hpost & Hput & _ & Hany).
  exists code, db'. split; [exact Hpost|]. split; [exact Hput|].
  apply Hany; reflexivity.
Defined.

Lemma sample_db_profile_keys_unique : profile_keys_unique sample_db.
Proof.
  unfold profile_keys_unique. simpl.
  repeat constructor; simpl; intuition discriminate.
Qed.

Lemma two_factor_put_upgrades_profiles_witness :
  Forall2 profile_upgraded (db_profiles sample_db)
    (db_profiles (snd (TwoFactorSetupView_put alice (Some "123456") sample_db)))
  /\ db_users (snd (TwoFactorSetupView_put alice (Some "123456") sample_db))
     = db_users sample_db.
Proof.
  destruct (two_factor_put_upgrades_profiles alice (Some "123456") sample_db
              sample_db_profile_keys_unique) as (H1 & H2 & _).
  split; [exact H1 | exact H2].
Defined.

(** ** Email search: which emails a query returns *)

Section SearchMore.

Context {collaborators : Collaborators}.

Lemma recipients_join_nonempty (e : Email) : recipients_join e <> [].
Proof.
  unfold recipients_join. destruct (recipients e); discriminate.
Qed.

Lemma recipients_join_In (e : Email) (uid : Z) :
  In uid (recipients e) -> In (Some uid) (recipients_join e).
Proof.
  unfold recipients_join. destruct (recipients e) as [|r rs]; [intros []|].
  intros H. apply in_map. exact H.
Qed.

Lemma base_queryset_In (user : User) (db : DB) (e : Email) :
  In e (exclude_trashed (filter_recipient_or_sender user (db_emails db)))
  <-> In e (db_emails db) /\ is_trashed e = false
      /\ (In (user_id user) (recipients e) \/ sender e = user_id user).
Proof.
  split.
  - intros H. apply base_queryset_visible in H.
    destruct H as (Hin & Ht & Hrs). repeat split; assumption.
  - intros (Hin & Ht & Hrs). unfold exclude_trashed. apply filter_In.
    split; [|rewrite Ht; reflexivity].
    unfold filter_recipient_or_sender. apply in_flat_map. exists e.
    split; [exact Hin|].
    destruct Hrs as [Hr|Hs].
    + apply in_map_iff. exists (Some (user_id user)).
      split; [reflexivity|]. apply filter_In.
      split; [apply recipients_join_In; exact Hr|].
      simpl. rewrite Z.eqb_refl. reflexivity.
    + destruct (recipients_join e) as [|r rs] eqn:Hj.
      * exfalso. exact (recipients_join_nonempty e Hj).
      * apply in_map_iff. exists r. split; [reflexivity|].
        apply filter_In. split; [left; reflexivity|].
        rewrite Hs, Z.eqb_refl. apply orb_true_r.
Qed.

Lemma range_stage_In (start_date end_date : option string)
    (q q' : list Email) (db db' : DB) :
  (if truthy start_date && truthy end_date
   then filter_sent_at_range (or_empty start_date) (or_empty end_date) q
   else ret q) db = (Return q', db') ->
  forall e,
    In e q' <->
    In e q
    /\ (truthy start_date && truthy end_date = true ->
        exists a b,
          parse_datetime (or_empty start_date) = Some a
          /\ parse_datetime (or_empty end_date) = Some b
          /\ a <= sent_at e <= b).
Proof.
  destruct (truthy start_date && truthy end_date).
  - unfold filter_sent_at_range.
    destruct (parse_datetime (or_empty start_date)) as [a|];
      [destruct (parse_datetime (or_empty end_date)) as [b|]|];
      try discriminate.
    intros H e. injection H as <- _. rewrite filter_In, andb_true_iff.
    rewrite !Z.leb_le. split.
    + intros (Hin & H1 & H2). split; [exact Hin|].
      intros _. exists a, b. repeat split; assumption.
    + intros (Hin & H). split; [exact Hin|].
      destruct (H eq_refl) as (a' & b' & Ha & Hb & H1 & H2).
      injection Ha as <-. injection Hb as <-. split; assumption.
  - intros H e. injection H as <- _. split.
    + intros Hin. split; [exact Hin | discriminate].
    + intros (Hin & _). exact Hin.
Qed.

Lemma status_stage_In_iff (status : option string) (q : list Email) (e : Email) :
  In e (if truthy status then
          if option_string_eqb status (Some "unread")
          then filter (fun e => negb (is_read e)) q
          else if option_string_eqb status (Some "starred")
               then filter (fun e => is_starred e) q
               else q
        else q)
  <-> In e q
      /\ (status = Some "unread" -> is_read e = false)
      /\ (status = Some "starred" -> is_starred e = true).
Proof.
  destruct status as [s|].
  2: { simpl. split; [intros H; repeat split; [exact H | discriminate..]
                     | intros (H & _); exact H]. }
  destruct (String.eqb_spec s "unread") as [->|Hu].
  { cbn. rewrite filter_In, negb_true_iff. split.
    - intros (Hin & Hr). repeat split; [exact Hin | intros _; exact Hr
                                        | discriminate].
    - intros (Hin & Hr & _). split; [exact Hin | apply Hr; reflexivity]. }
  destruct (String.eqb_spec s "starred") as [->|Hs].
  { cbn. rewrite filter_In. split.
    - intros (Hin & Hr). repeat split; [exact Hin | discriminate
                                        | intros _; exact Hr].
    - intros (Hin & _ & Hr). split; [exact Hin | apply Hr; reflexivity]. }
  assert (Hsame : (if truthy (Some s) then
                     if option_string_eqb (Some s) (Some "unread")
                     then filter (fun e => negb (is_read e)) q
                     else if option_string_eqb (Some s) (Some "starred")
                          then filter (fun e => is_starred e) q
                          else q
                   else q) = q).
  { unfold option_string_eqb.
    destruct (String.eqb_spec s "unread"); [contradiction|].
    destruct (String.eqb_spec s "starred"); [contradiction|].
    destruct (truthy (Some s)); reflexivity. }
  rewrite Hsame. split.
  - intros Hin. repeat split; [exact Hin | |]; intros H; injection H as ->;
      contradiction.
  - intros (Hin & _). exact Hin.
Qed.

Lemma filter_labels_name_In_iff
    (db : DB) (label : string) (q : list Email) (e : Email) :
  In e (filter_labels_name db label q)
  <-> In e q /\ has_label_named db label e.
Proof.
  unfold filter_labels_name, has_label_named. split.
  - intros H. apply in_flat_map in H. destruct H as (x & Hx & H).
    apply in_map_iff in H. destruct H as (l & <- & Hl).
    split; [exact Hx|].
    apply in_flat_map in Hl. destruct Hl as (lid & Hlid & Hl).
    apply filter_In in Hl. destruct Hl as [Hl Hc].
    apply andb_true_iff in Hc. destruct Hc as [Hid Hname].
    apply Z.eqb_eq in Hid. apply String.eqb_eq in Hname.
    exists l. rewrite Hid. repeat split; assumption.
  - intros (Hin & l & Hlid & Hl & Hname).
    apply in_flat_map. exists e. split; [exact Hin|].
    apply in_map_iff. exists l. split; [reflexivity|].
    apply in_flat_map. exists (label_id l). split; [exact Hlid|].
    apply filter_In. split; [exact Hl|].
    rewrite Z.eqb_refl. apply String.eqb_eq. exact Hname.
Qed.

Lemma filter_attachments_In_iff (db : DB) (q : list Email) (e : Email) :
  In e (distinct (filter_attachments_isnull_false db q))
  <-> In e q /\ has_attachment db e.
Proof.
  unfold distinct. rewrite nodup_In. unfold has_attachment. split.
  - apply filter_attachments_In.
  - intros (Hin & a & Ha & Heq).
    unfold filter_attachments_isnull_false.
    apply in_flat_map. exists e. split; [exact Hin|].
    apply in_map_iff. exists a. split; [reflexivity|].
    apply filter_In. split; [exact Ha | apply Z.eqb_eq; exact Heq].
Qed.

(** X20. The emails a search returns are exactly the stored emails that
    are not trashed, have the caller as a recipient or as sender, and pass
    every filter that is switched on: sent within the two bounds when both
    are given, unread or starred when the status says so, carrying a label
    of the given name, having an attachment. *)
Theorem search_membership
    (user : User) (params : QueryParams) (db db' : DB) (q : list Email) :
  AdvancedEmailSearchView_get_queryset user params db = (Return q, db') ->
  forall e,
    In e q <->
    In e (db_emails db) /\ is_trashed e = false
    /\ (In (user_id user) (recipients e) \/ sender e = user_id user)
    /\ (truthy (param_start_date params) && truthy (param_end_date params)
        = true ->
        exists a b,
          parse_datetime (or_empty (param_start_date params)) = Some a
          /\ parse_datetime (or_empty (param_end_date params)) = Some b
          /\ a <= sent_at e <= b)
    /\ (param_status params = Some "unread" -> is_read e = false)
    /\ (param_status params = Some "starred" -> is_starred e = true)
    /\ (truthy (param_label params) = true ->
        has_label_named db (or_empty (param_label params)) e)
    /\ (truthy (param_has_attachments params) = true -> has_attachment db e).
Proof.
  unfold AdvancedEmailSearchView_get_queryset, bind at 1, get_db.
  unfold bind at 1.
  match goal with
  | |- context [(if ?c then ?a else ?b) db] =>
      destruct ((if c then a else b) db) as [[q0|ex] db0] eqn:Hrange
  end; [|discriminate].
  pose proof (range_stage_In _ _ _ _ _ _ Hrange) as Hq0.
  unfold ret. intros H e. injection H as <- _.
  assert (Hatt : forall l,
            In e (if truthy (param_has_attachments params)
                  then distinct (filter_attachments_isnull_false db l)
                  else l)
            <-> In e l
                /\ (truthy (param_has_attachments params) = true ->
                    has_attachment db e)).
  { intros l. destruct (truthy (param_has_attachments params)).
    - rewrite filter_attachments_In_iff. split.
      + intros (H1 & H2). split; [exact H1 | intros _; exact H2].
      + intros (H1 & H2). split; [exact H1 | apply H2; reflexivity].
    - split; [intros H; split; [exact H | discriminate]
             | intros (H & _); exact H]. }
  assert (Hlab : forall l,
            In e (if truthy (param_label params)
                  then filter_labels_name db (or_empty (param_label params)) l
                  else l)
            <-> In e l
                /\ (truthy (param_label params) = true ->
                    has_label_named db (or_empty (param_label params)) e)).
  { intros l. destruct (truthy (param_label params)).
    - rewrite filter_labels_name_In_iff. split.
      + intros (H1 & H2). split; [exact H1 | intros _; exact H2].
      + intros (H1 & H2). split; [exact H1 | apply H2; reflexivity].
    - split; [intros H; split; [exact H | discriminate]
             | intros (H & _); exact H]. }
  rewrite Hatt, Hlab, status_stage_In_iff, Hq0, base_queryset_In.
  tauto.
Qed.

(** X21. Filters that are incomplete or unknown are ignored rather than
    rejected: a date range of which a bound is absent or empty gives the
    query without date range, and a status other than "unread" and
    "starred" gives the query without status. *)
Theorem search_ignores_incomplete_filters
    (user : User) (params : QueryParams) (db : DB) :
  (forall a b,
     truthy a && truthy b = false ->
     AdvancedEmailSearchView_get_queryset user
       (set_param_end_date b (set_param_start_date a params)) db
     = AdvancedEmailSearchView_get_queryset user
         (set_param_end_date None (set_param_start_date None params)) db)
  /\ (forall s,
        s <> "unread" -> s <> "starred" ->
        AdvancedEmailSearchView_get_queryset user
          (set_param_status (Some s) params) db
        = AdvancedEmailSearchView_get_queryset user
            (set_param_status None params) db).
Proof.
  split.
  - intros a b Hab.
    unfold AdvancedEmailSearchView_get_queryset, bind, get_db.
    cbn [set_param_end_date set_param_start_date param_start_date
         param_end_date param_status param_label param_has_attachments].
    rewrite Hab. reflexivity.
  - intros s Hu Hs.
    unfold AdvancedEmailSearchView_get_queryset, bind, get_db.
    cbn [set_param_status param_start_date param_end_date param_status
         param_label param_has_attachments].
    unfold option_string_eqb.
    destruct (String.eqb_spec s "unread"); [contradiction|].
    destruct (String.eqb_spec s "starred"); [contradiction|].
    destruct (truthy (Some s)); reflexivity.
Qed.

End SearchMore.

Lemma search_membership_witness :
  AdvancedEmailSearchView_get_queryset (collaborators := sample_collaborators)
    alice unread_with_attachments sample_db
  = (Return [first_email], sample_db)
  /\ In first_email (db_emails sample_db)
  /\ is_read first_email = false
  /\ has_attachment sample_db first_email.
Proof.
  assert (Hrun : AdvancedEmailSearchView_get_queryset
                   (collaborators := sample_collaborators)
                   alice unread_with_attachments sample_db
                 = (Return [first_email], sample_db))
    by (vm_compute; reflexivity).
  split; [exact Hrun|].
  destruct (proj1 (search_membership (collaborators := sample_collaborators)
                     alice unread_with_attachments sample_db sample_db
                     [first_email] Hrun first_email)
                  (or_introl eq_refl))
    as (Hin & _ & _ & _ & Hread & _ & _ & Hatt).
  split; [exact Hin|]. split; [exact (Hread eq_refl) | exact (Hatt eq_refl)].
Defined.

Lemma search_ignores_incomplete_filters_witness :
  AdvancedEmailSearchView_get_queryset (collaborators := sample_collaborators)
    alice (set_param_end_date None (set_param_start_date (Some "150") no_params))
    sample_db
  = (Return [first_email; second_email; second_email], sample_db)
  /\ AdvancedEmailSearchView_get_queryset
       (collaborators := sample_collaborators)
       alice (set_param_status (Some "read") no_params) sample_db
     = (Return [first_email; second_email; second_email], sample_db).
Proof.
  destruct (search_ignores_incomplete_filters
              (collaborators := sample_collaborators) alice no_params
              sample_db) as (Hdates & Hstatus).
  split.
  - rewrite (Hdates (Some "150") None eq_refl). vm_compute. reflexivity.
  - rewrite (Hstatus "read" ltac:(discriminate) ltac:(discriminate)).
    vm_compute. reflexivity.
Defined.

(** ** A request without a token; views on a freshly registered user *)

Lemma filter_nil_all {A} (p : A -> bool) (l : list A) :
  filter p l = [] <-> forall x, In x l -> p x = false.
Proof.
  induction l as [|a l IH]; simpl.
  - split; [intros _ x [] | reflexivity].
  - destruct (p a) eqn:Hp.
    + split; [discriminate|]. intros H.
      rewrite (H a (or_introl eq_refl)) in Hp. discriminate.
    + rewrite IH. split.
      * intros H x [<-|Hx]; [exact Hp | apply H; exact Hx].
      * intros H x Hx. apply H. right. exact Hx.
Qed.

(** X22. On a store where a row without a session token has no expiry
    either, validate-token without a session_token key answers 401 and
    changes nothing; every logout keeps the store that way. *)
Theorem validate_token_missing_key
    (now : Z) (db : DB) :
  sessions_well_formed db ->
  ValidateTokenView_post now None db
  = (Return (mkResponse HTTP_401_UNAUTHORIZED
                        (JsonMessage "Invalid or expired token")),
     db)
  /\ forall now' body hdr,
       sessions_well_formed (snd (LogoutView_post now' body hdr db)).
Proof.
  intros Hwf. split.
  - unfold ValidateTokenView_post, try_except, bind, objects_get.
    rewrite (proj2 (filter_nil_all _ _)); [reflexivity|].
    intros u Hu. unfold session_lookup, session_token_exact, session_expiry_gt,
      option_string_eqb.
    destruct (session_token u) eqn:Ht; [reflexivity|].
    rewrite (Hwf u Hu Ht). reflexivity.
  - intros now' body hdr.
    destruct (truthy (py_or body hdr)) eqn:Ht.
    + destruct (live_sessions (py_or body hdr) now' db) as [|u [|v l]] eqn:Hl.
      * rewrite logout_unknown_token by assumption. exact Hwf.
      * rewrite (logout_live_token now' body hdr u db Ht Hl).
        intros x Hx Htok. cbn [snd db_users set_users] in Hx.
        apply in_map_iff in Hx. destruct Hx as (r & Hr & Hin).
        destruct (user_id r =? user_id u).
        -- subst x. reflexivity.
        -- subst x. exact (Hwf r Hin Htok).
      * rewrite (logout_ambiguous_token now' body hdr u v l db Ht Hl).
        exact Hwf.
    + rewrite logout_without_token by assumption. exact Hwf.
Qed.

Lemma sample_db_sessions_well_formed : sessions_well_formed sample_db.
Proof.
  intros u Hin Htok. simpl in Hin.
  destruct Hin as [<-|[<-|[<-|[]]]]; try discriminate Htok; reflexivity.
Qed.

Lemma validate_token_missing_key_witness :
  ValidateTokenView_post 100 None sample_db
  = (Return (mkResponse HTTP_401_UNAUTHORIZED
                        (JsonMessage "Invalid or expired token")),
     sample_db)
  /\ sessions_well_formed
       (snd (LogoutView_post 100 (Some "tok-alice") None sample_db)).
Proof.
  destruct (validate_token_missing_key 100 sample_db
              sample_db_sessions_well_formed) as (Hval & Hkeep).
  split; [exact Hval | apply Hkeep].
Defined.

Section AfterRegistration.

Context {collaborators : Collaborators}.

(** X23. A user created by a registration on a consistent store already
    has a settings row and a profile: reading the auto-reply settings of
    the new user inserts nothing, and the two-factor POST finds the
    profile. *)
Theorem registered_user_has_settings_and_profile
    (d : RegisterData) (db db' : DB) (user : User) (randint : Z) :
  store_consistent db ->
  RegisterView_post d db
  = (Return (mkResponse HTTP_201_CREATED (JsonUser user)), db') ->
  (exists row,
     AutoReplySettingsView_get user db'
     = (Return (mkResponse HTTP_200_OK (JsonAutoReply row)), db')
     /\ settings_rows user db' = [row])
  /\ (exists prof, profile_rows user db' = [prof])
  /\ exists code,
       TwoFactorSetupView_post randint user db'
       = (Return (mkReply HTTP_200_OK
                    (BodyVerificationCode "Verification code generated" code)),
          db').
Proof.
  intros (Hkeys & Hpo & Hso & Hlo) Hrun.
  destruct (register_created_conditions d db db' _ Hrun eq_refl)
    as (p & Hp & Hlen & Hv & Hnew).
  destruct (register_created_forward d p db Hv Hp Hlen Hnew
              (fresh_key_no_profile db Hpo) (fresh_key_no_settings db Hso))
    as (prof & sett & i1 & i2 & i3 & Hrun' & Hpu & Hsu).
  rewrite Hrun' in Hrun. injection Hrun as <- <-.
  cbv zeta in Hpu, Hsu.
  match goal with
  | |- context [AutoReplySettingsView_get ?u ?x] =>
      set (dbx := x); set (newuser := u) in *
  end.
  assert (Hrows : settings_rows newuser dbx = [sett]).
  { unfold settings_rows. subst newuser dbx. cbn [db_settings user_id].
    rewrite filter_app, (existsb_false_filter _ _ (fresh_key_no_settings db Hso)).
    simpl. rewrite Hsu, Z.eqb_refl. reflexivity. }
  assert (Hprows : profile_rows newuser dbx = [prof]).
  { unfold profile_rows. subst newuser dbx. cbn [db_profiles user_id].
    rewrite filter_app, (existsb_false_filter _ _ (fresh_key_no_profile db Hpo)).
    simpl. rewrite Hpu, Z.eqb_refl. reflexivity. }
  split; [|split].
  - exists sett. split; [apply get_existing; exact Hrows | exact Hrows].
  - exists prof. exact Hprows.
  - eexists. unfold TwoFactorSetupView_post, bind.
    rewrite (user_profile_found _ _ prof Hprows). reflexivity.
Qed.

End AfterRegistration.

Lemma registered_user_has_settings_and_profile_witness :
  exists row,
    AutoReplySettingsView_get (collaborators := sample_collaborators)
      dan registered_db
    = (Return (mkResponse HTTP_200_OK (JsonAutoReply row)), registered_db).
Proof.
  assert (Hrun : RegisterView_post (collaborators := sample_collaborators)
                   new_registration sample_db
                 = (Return (mkResponse HTTP_201_CREATED (JsonUser dan)),
                    registered_db))
    by (vm_compute; reflexivity).
  destruct (registered_user_has_settings_and_profile
              (collaborators := sample_collaborators)
              new_registration sample_db registered_db dan 123456
              sample_db_consistent Hrun)
    as ((row & Hget & _) & _).
  exists row. exact Hget.
Defined.
